(** * hyperglass: construction of device queries

    A shallow embedding of [hyperglass/execution/construct.py], the class
    [Construct] that turns a validated query into the command lines
    (transport ["scrape"]) or the JSON payloads (transport ["rest"]) sent to a
    device, and the properties of it that the specification states. *)

From Stdlib Require Import String Ascii List Bool Arith Lia.
Import ListNotations.
Open Scope string_scope.

(** ** Python values and exceptions *)

(** The type of the object on which an attribute access failed, as it is
    named in the message of Python's [AttributeError]. *)
Inductive pytype : Type :=
| NoneType
| StrType
| ObjectType.

(** The exceptions the module can raise: its own [HyperglassError], and the
    interpreter's [AttributeError] and [ValueError]. *)
Inductive exn : Type :=
| HyperglassError (message alert : string) (keywords : list (option string))
| AttributeError (on : pytype) (attr : string)
| ValueError (arg : string).

Inductive result (A : Type) : Type :=
| Ok (a : A)
| Raise (e : exn).

Arguments Ok {A} a.
Arguments Raise {A} e.

Definition bind {A B : Type} (m : result A) (k : A -> result B) : result B :=
  match m with
  | Ok a => k a
  | Raise e => Raise e
  end.

Notation "x <- m ;; k" := (bind m (fun x => k))
  (at level 61, m at next level, right associativity).

(** ** Data model *)

(** An [ipaddress.IPv4Address] or [IPv6Address]; [str] of it is its
    [compressed] form. *)
Record IPAddress : Type := { compressed : string }.

(** Modelled from the spec: the class of the per address family part of a
    VRF, declared outside [construct.py]: the name of the routing table and
    the address probes are sourced from, which may be absent. *)
Record AfiRecord : Type := {
  vrf_name : string;
  source_address : option IPAddress
}.

(** Modelled from the spec: the VRF model class, declared outside
    [construct.py]: a name and one optional sub-record per address family,
    the fields declared in the order [name], [ipv4], [ipv6]. *)
Record Vrf : Type := {
  name : string;
  ipv4 : option AfiRecord;
  ipv6 : option AfiRecord
}.

Module Device.
(** Modelled from the spec: the device class, declared outside
    [construct.py], with the attributes [Construct] reads: [nos] is looked
    up in [target_format_space], [commands] is the first key into the command
    catalog, [vrfs] is the ordered list of the configured VRFs. *)
Record t : Type := {
  nos : string;
  commands : string;
  vrfs : list Vrf
}.
End Device.

Module Query.
(** Modelled from the spec: the validated query, declared outside
    [construct.py]; [query_vrf] is a [str] or [None]. *)
Record t : Type := {
  query_target : string;
  query_vrf : option string
}.
End Query.

(** What an attribute of a VRF, or a value of [Vrf.dict()], can be. *)
Inductive pyval : Type :=
| VNone
| VStr (s : string)
| VAfi (r : AfiRecord).

Definition of_afi (o : option AfiRecord) : pyval :=
  match o with
  | Some r => VAfi r
  | None => VNone
  end.

(** Python truthiness: [None] and the empty string are false, the
    dictionary of a sub-record (it has fields) is true. *)
Definition truthy (v : pyval) : bool :=
  match v with
  | VNone => false
  | VStr s => negb (s =? "")
  | VAfi _ => true
  end.

(** [vrf.dict().items()], in the order of declaration of the fields. *)
Definition vrf_dict (v : Vrf) : list (string * pyval) :=
  [("name", VStr (name v)); ("ipv4", of_afi (ipv4 v)); ("ipv6", of_afi (ipv6 v))].

(** [getattr(vrf, attr)]. *)
Definition getattr_vrf (v : Vrf) (attr : string) : result pyval :=
  match find (fun kv => fst kv =? attr) (vrf_dict v) with
  | Some kv => Ok (snd kv)
  | None => Raise (AttributeError ObjectType attr)
  end.

Definition type_of (v : pyval) : pytype :=
  match v with
  | VNone => NoneType
  | VStr _ => StrType
  | VAfi _ => ObjectType
  end.

(** [afi.vrf_name] *)
Definition get_vrf_name (afi : pyval) : result string :=
  match afi with
  | VAfi r => Ok (vrf_name r)
  | _ => Raise (AttributeError (type_of afi) "vrf_name")
  end.

(** [afi.source_address] *)
Definition get_source_address (afi : pyval) : result (option IPAddress) :=
  match afi with
  | VAfi r => Ok (source_address r)
  | _ => Raise (AttributeError (type_of afi) "source_address")
  end.

(** [address.compressed], where [address] may be [None]. *)
Definition get_compressed (address : option IPAddress) : result string :=
  match address with
  | Some a => Ok (compressed a)
  | None => Raise (AttributeError NoneType "compressed")
  end.

(** ** The command catalog *)

(** The catalog [hyperglass.configuration.commands] is an object whose
    attributes are set when the configuration is loaded: an attribute is a
    template (a [str]) or an object with attributes of its own. *)
#[warnings="-register-all"]
Inductive pyobj : Type :=
| PyStr (s : string)
| PyObject (attrs : list (string * pyobj)).

Definition getattr_obj (o : pyobj) (attr : string) : result pyobj :=
  match o with
  | PyStr _ => Raise (AttributeError StrType attr)
  | PyObject attrs =>
      match find (fun kv => fst kv =? attr) attrs with
      | Some kv => Ok (snd kv)
      | None => Raise (AttributeError ObjectType attr)
      end
  end.

(** [path.split(".")] *)
Fixpoint split_dot (path : string) : list string :=
  match path with
  | EmptyString => [EmptyString]
  | String c rest =>
      if Ascii.eqb c "."%char then EmptyString :: split_dot rest
      else match split_dot rest with
           | h :: t => String c h :: t
           | [] => [String c EmptyString]
           end
  end.

(** [operator.attrgetter(path)(obj)]: one [getattr] per dotted component. *)
Fixpoint getattr_path (names : list string) (obj : pyobj) : result pyobj :=
  match names with
  | [] => Ok obj
  | n :: rest => o <- getattr_obj obj n ;; getattr_path rest o
  end.

Definition attrgetter (path : string) (obj : pyobj) : result pyobj :=
  getattr_path (split_dot path) obj.

(** The keyword arguments of [cmd.format(target=..., source=..., vrf=...)];
    [source] is an address object or [None]. *)
Record fmt_kwargs : Type := {
  kw_target : string;
  kw_source : option IPAddress;
  kw_vrf : string
}.

Inductive ip_version : Type := V4 | V6.

(** The decimal digit of [ip_network(...).version]. *)
Definition version_digit (v : ip_version) : string :=
  match v with
  | V4 => "4"
  | V6 => "6"
  end.

(** What [construct.py] imports: the command catalog and the set
    [target_format_space] of the project's configuration, and from Python's
    library the version of [ipaddress.ip_network(target)] (a [ValueError]
    when [target] is no network) and [str.format].  The templates of the
    catalog are format strings over the named fields [target], [source] and
    [vrf], on which [str.format] with these three keywords does not fail. *)
Record Env : Type := {
  commands : pyobj;
  target_format_space : list string;
  ip_network_version : string -> result ip_version;
  str_format : string -> fmt_kwargs -> string
}.

(** ** Artifacts *)

Inductive json : Type :=
| JNull
| JString (s : string).

(** An element of the returned list [query] is a [str]: the text
    [json.dumps(d)] of a dictionary [d], kept here as [d] with its keys in
    the order they are written, or a rendered command line. *)
Inductive artifact : Type :=
| JsonDumps (d : list (string * json))
| CommandLine (s : string).

(** [d[key]] *)
Definition field (key : string) (d : list (string * json)) : option json :=
  match find (fun kv => fst kv =? key) d with
  | Some kv => Some (snd kv)
  | None => None
  end.

(** ** class Construct *)

Record Construct : Type := {
  device : Device.t;
  query_data : Query.t;
  transport : string;
  query_target : string;
  query_vrf : option string;
  device_vrf : Vrf
}.

(** [s == v], for a string [s] and a [v] that is a [str] or [None]: the
    test [vrf.name == query_vrf], and [query_vrf != "default"] negated. *)
Definition str_eq (s : string) (v : option string) : bool :=
  match v with
  | Some q => s =? q
  | None => false
  end.

(** The loop of [get_device_vrf]: every match overwrites [_device_vrf]. *)
Definition match_vrf (query_vrf : option string) (vrfs : list Vrf) : option Vrf :=
  fold_left
    (fun _device_vrf vrf => if str_eq (name vrf) query_vrf then Some vrf else _device_vrf)
    vrfs None.

Definition get_device_vrf (device : Device.t) (query_vrf : option string) : result Vrf :=
  match match_vrf query_vrf (Device.vrfs device) with
  | None =>
      Raise (HyperglassError "Unable to match query VRF to any configured VRFs"
               "danger" [query_vrf])
  | Some _device_vrf => Ok _device_vrf
  end.

(** [Construct.__init__] *)
Definition init (device : Device.t) (query_data : Query.t) (transport : string)
  : result Construct :=
  _device_vrf <- get_device_vrf device (Query.query_vrf query_data) ;;
  Ok {| device := device;
        query_data := query_data;
        transport := transport;
        query_target := Query.query_target query_data;
        query_vrf := Query.query_vrf query_data;
        device_vrf := _device_vrf |}.

(** [re.sub(r"\/", r" ", target)] *)
Fixpoint sub_slash (target : string) : string :=
  match target with
  | EmptyString => EmptyString
  | String c rest =>
      String (if Ascii.eqb c "/"%char then " "%char else c) (sub_slash rest)
  end.

(** [s in l] *)
Definition mem (s : string) (l : list string) : bool :=
  existsb (String.eqb s) l.

Definition format_target (E : Env) (self : Construct) (target : string) : string :=
  if mem (Device.nos (device self)) (target_format_space E)
  then sub_slash target
  else target.

Definition device_commands (E : Env) (nos afi query_type : string) : result pyobj :=
  attrgetter (nos ++ "." ++ afi ++ "." ++ query_type) (commands E).

(** Truthiness of [query_vrf]. *)
Definition truthy_str (s : option string) : bool :=
  match s with
  | None => false
  | Some s => negb (s =? "")
  end.

Definition get_cmd_type (query_protocol : string) (query_vrf : option string) : string :=
  if truthy_str query_vrf && negb (str_eq "default" query_vrf)
  then query_protocol ++ "_vpn"
  else query_protocol ++ "_default".

(** [cmd.format]: the bound method of a template. *)
Definition get_format (E : Env) (cmd : pyobj) : result (fmt_kwargs -> string) :=
  match cmd with
  | PyStr s => Ok (str_format E s)
  | PyObject _ => Raise (AttributeError ObjectType "format")
  end.

(** The dictionary of a REST payload, keys in the order the source writes
    them for [ping], [traceroute] and [bgp_route]. *)
Definition payload (query_type vrf afi : string) (source : json) (target : string)
  : list (string * json) :=
  [("query_type", JString query_type); ("vrf", JString vrf); ("afi", JString afi);
   ("source", source); ("target", JString target)].

(** The same for [bgp_community] and [bgp_aspath], where ["target"] is
    written before ["source"]. *)
Definition payload_fanout (query_type vrf afi : string) (target : string) (source : json)
  : list (string * json) :=
  [("query_type", JString query_type); ("vrf", JString vrf); ("afi", JString afi);
   ("target", JString target); ("source", source)].

Definition ping (E : Env) (self : Construct) : result (list artifact) :=
  let query := [] in
  version <- ip_network_version E (query_target self) ;;
  let query_protocol := "ipv" ++ version_digit version in
  afi <- getattr_vrf (device_vrf self) query_protocol ;;
  let cmd_type := get_cmd_type query_protocol (query_vrf self) in
  if transport self =? "rest" then
    vrf <- get_vrf_name afi ;;
    address <- get_source_address afi ;;
    source <- get_compressed address ;;
    Ok (query ++ [JsonDumps (payload "ping" vrf cmd_type (JString source)
                               (query_target self))])%list
  else if transport self =? "scrape" then
    cmd <- device_commands E (Device.commands (device self)) cmd_type "ping" ;;
    format <- get_format E cmd ;;
    source <- get_source_address afi ;;
    vrf <- get_vrf_name afi ;;
    Ok (query ++ [CommandLine (format {| kw_target := query_target self;
                                         kw_source := source;
                                         kw_vrf := vrf |})])%list
  else Ok query.

Definition traceroute (E : Env) (self : Construct) : result (list artifact) :=
  let query := [] in
  version <- ip_network_version E (query_target self) ;;
  let query_protocol := "ipv" ++ version_digit version in
  afi <- getattr_vrf (device_vrf self) query_protocol ;;
  let cmd_type := get_cmd_type query_protocol (query_vrf self) in
  if transport self =? "rest" then
    vrf <- get_vrf_name afi ;;
    address <- get_source_address afi ;;
    source <- get_compressed address ;;
    Ok (query ++ [JsonDumps (payload "traceroute" vrf cmd_type (JString source)
                               (query_target self))])%list
  else if transport self =? "scrape" then
    cmd <- device_commands E (Device.commands (device self)) cmd_type "traceroute" ;;
    format <- get_format E cmd ;;
    source <- get_source_address afi ;;
    vrf <- get_vrf_name afi ;;
    Ok (query ++ [CommandLine (format {| kw_target := query_target self;
                                         kw_source := source;
                                         kw_vrf := vrf |})])%list
  else Ok query.

Definition bgp_route (E : Env) (self : Construct) : result (list artifact) :=
  let query := [] in
  version <- ip_network_version E (query_target self) ;;
  let query_protocol := "ipv" ++ version_digit version in
  afi <- getattr_vrf (device_vrf self) query_protocol ;;
  let cmd_type := get_cmd_type query_protocol (query_vrf self) in
  if transport self =? "rest" then
    vrf <- get_vrf_name afi ;;
    Ok (query ++ [JsonDumps (payload "bgp_route" vrf cmd_type JNull
                               (format_target E self (query_target self)))])%list
  else if transport self =? "scrape" then
    cmd <- device_commands E (Device.commands (device self)) cmd_type "bgp_route" ;;
    format <- get_format E cmd ;;
    source <- get_source_address afi ;;
    vrf <- get_vrf_name afi ;;
    Ok (query ++ [CommandLine (format {| kw_target := format_target E self (query_target self);
                                         kw_source := source;
                                         kw_vrf := vrf |})])%list
  else Ok query.

(** The first loop of [bgp_community] and [bgp_aspath]: the keys ["ipv4"]
    and ["ipv6"] of [device_vrf.dict()] whose value is true. *)
Definition populated_afis (device_vrf : Vrf) : list string :=
  map fst
    (filter (fun kv => truthy (snd kv))
       (filter (fun kv => mem (fst kv) ["ipv4"; "ipv6"]) (vrf_dict device_vrf))).

(** [for x in l: body], where [body] appends to [query] or raises. *)
Fixpoint for_each {A B : Type} (l : list A) (body : A -> list B -> result (list B))
  (query : list B) : result (list B) :=
  match l with
  | [] => Ok query
  | x :: rest => query' <- body x query ;; for_each rest body query'
  end.

Definition bgp_community (E : Env) (self : Construct) : result (list artifact) :=
  let query := [] in
  let afis := populated_afis (device_vrf self) in
  for_each afis
    (fun afi query =>
       afi_attr <- getattr_vrf (device_vrf self) afi ;;
       let cmd_type := get_cmd_type afi (query_vrf self) in
       if transport self =? "rest" then
         vrf <- get_vrf_name afi_attr ;;
         Ok (query ++ [JsonDumps (payload_fanout "bgp_community" vrf cmd_type
                                    (query_target self) JNull)])%list
       else if transport self =? "scrape" then
         cmd <- device_commands E (Device.commands (device self)) cmd_type "bgp_community" ;;
         format <- get_format E cmd ;;
         source <- get_source_address afi_attr ;;
         vrf <- get_vrf_name afi_attr ;;
         Ok (query ++ [CommandLine (format {| kw_target := query_target self;
                                              kw_source := source;
                                              kw_vrf := vrf |})])%list
       else Ok query)
    query.

Definition bgp_aspath (E : Env) (self : Construct) : result (list artifact) :=
  let query := [] in
  let afis := populated_afis (device_vrf self) in
  for_each afis
    (fun afi query =>
       afi_attr <- getattr_vrf (device_vrf self) afi ;;
       let cmd_type := get_cmd_type afi (query_vrf self) in
       if transport self =? "rest" then
         vrf <- get_vrf_name afi_attr ;;
         Ok (query ++ [JsonDumps (payload_fanout "bgp_aspath" vrf cmd_type
                                    (query_target self) JNull)])%list
       else if transport self =? "scrape" then
         cmd <- device_commands E (Device.commands (device self)) cmd_type "bgp_aspath" ;;
         format <- get_format E cmd ;;
         source <- get_source_address afi_attr ;;
         vrf <- get_vrf_name afi_attr ;;
         Ok (query ++ [CommandLine (format {| kw_target := query_target self;
                                              kw_source := source;
                                              kw_vrf := vrf |})])%list
       else Ok query)
    query.

(** ** An example configuration

    A catalog, devices and queries on which the operations are run in the
    examples below. *)

(** [str.format] on templates made of text and the named fields
    [{target}], [{source}] and [{vrf}]: [field] holds the name being read
    after an opening brace. *)
Fixpoint render_fields (kw : fmt_kwargs) (template : string) (field : option string)
  : string :=
  match template with
  | EmptyString => EmptyString
  | String c rest =>
      match field with
      | None =>
          if Ascii.eqb c "{"%char then render_fields kw rest (Some EmptyString)
          else String c (render_fields kw rest None)
      | Some f =>
          if Ascii.eqb c "}"%char then
            (if f =? "target" then kw_target kw
             else if f =? "source" then
               match kw_source kw with
               | Some a => compressed a
               | None => "None"
               end
             else if f =? "vrf" then kw_vrf kw
             else EmptyString)
            ++ render_fields kw rest None
          else render_fields kw rest (Some (f ++ String c EmptyString))
      end
  end.

Definition example_format (template : string) (kw : fmt_kwargs) : string :=
  render_fields kw template None.

(** The value of [ipaddress.ip_network(target).version] on the targets of
    the examples; no other target is used below. *)
Definition example_ip_network_version (target : string) : result ip_version :=
  if mem target ["192.0.2.0/24"; "192.0.2.1"] then Ok V4
  else if mem target ["2001:db8::/32"; "2001:db8::1"] then Ok V6
  else Raise (ValueError target).

Definition example_commands : pyobj :=
  PyObject
    [("cisco_ios",
      PyObject
        [("ipv4_default",
          PyObject
            [("ping", PyStr "ping {target} repeat 5 source {source}");
             ("traceroute", PyStr "traceroute {target} timeout 1 probe 2 source {source}");
             ("bgp_route", PyStr "show bgp ipv4 unicast {target}");
             ("bgp_community", PyStr "show bgp ipv4 unicast community {target}");
             ("bgp_aspath", PyStr "show bgp ipv4 unicast regexp {target}")]);
         ("ipv6_default",
          PyObject
            [("ping", PyStr "ping ipv6 {target} repeat 5 source {source}");
             ("bgp_route", PyStr "show bgp ipv6 unicast {target}");
             ("bgp_community", PyStr "show bgp ipv6 unicast community {target}")]);
         ("ipv4_vpn",
          PyObject
            [("ping", PyStr "ping vrf {vrf} {target} repeat 5 source {source}");
             ("bgp_route", PyStr "show bgp vpnv4 unicast vrf {vrf} {target}");
             ("bgp_community", PyStr "show bgp vpnv4 unicast vrf {vrf} community {target}");
             ("bgp_aspath", PyStr "show bgp vpnv4 unicast vrf {vrf} regexp {target}")])]);
     ("huawei",
      PyObject
        [("ipv4_default",
          PyObject
            [("bgp_route", PyStr "display bgp routing-table {target}")])])].

Definition example_env : Env :=
  {| commands := example_commands;
     target_format_space := ["huawei"; "huawei_vrpv8"];
     ip_network_version := example_ip_network_version;
     str_format := example_format |}.

Definition vrf_default : Vrf :=
  {| name := "default";
     ipv4 := Some {| vrf_name := "default";
                     source_address := Some {| compressed := "192.0.2.1" |} |};
     ipv6 := Some {| vrf_name := "default";
                     source_address := Some {| compressed := "2001:db8::1" |} |} |}.

Definition vrf_customer : Vrf :=
  {| name := "CUSTOMER-A";
     ipv4 := Some {| vrf_name := "customer_a";
                     source_address := Some {| compressed := "192.0.2.9" |} |};
     ipv6 := None |}.

(** A VRF with no IPv4 presence, and one whose IPv4 part has no source
    address. *)
Definition vrf_v6only : Vrf :=
  {| name := "V6";
     ipv4 := None;
     ipv6 := Some {| vrf_name := "v6";
                     source_address := Some {| compressed := "2001:db8::6" |} |} |}.

Definition vrf_nosource : Vrf :=
  {| name := "NOSRC";
     ipv4 := Some {| vrf_name := "nosrc"; source_address := None |};
     ipv6 := None |}.

(** A second record named ["default"], after the first in the list. *)
Definition vrf_default_again : Vrf :=
  {| name := "default";
     ipv4 := Some {| vrf_name := "global"; source_address := None |};
     ipv6 := None |}.

Definition router (nos : string) : Device.t :=
  {| Device.nos := nos;
     Device.commands := nos;
     Device.vrfs := [vrf_default; vrf_customer; vrf_v6only; vrf_nosource] |}.

Definition example_query (target : string) (vrf : string) : Query.t :=
  {| Query.query_target := target; Query.query_vrf := Some vrf |}.

(** [Construct(device, query, transport)] followed by one operation. *)
Definition run (E : Env) (op : Env -> Construct -> result (list artifact))
  (device : Device.t) (query_data : Query.t) (transport : string)
  : result (list artifact) :=
  self <- init device query_data transport ;; op E self.

(** The instance [Construct(device, query, transport)] builds when [vrf] is
    the record it resolves. *)
Definition constructed (device : Device.t) (query_data : Query.t) (transport : string)
  (vrf : Vrf) : Construct :=
  {| device := device;
     query_data := query_data;
     transport := transport;
     query_target := Query.query_target query_data;
     query_vrf := Query.query_vrf query_data;
     device_vrf := vrf |}.

(** ** Vocabulary of the specification *)

(** The sub-record of a VRF for the address family of a target. *)
Definition family_record (vrf : Vrf) (version : ip_version) : option AfiRecord :=
  match version with
  | V4 => ipv4 vrf
  | V6 => ipv6 vrf
  end.

(** The address families populated on a VRF with their sub-records, in the
    fixed order [ipv4] before [ipv6]. *)
Definition families (vrf : Vrf) : list (string * AfiRecord) :=
  (match ipv4 vrf with Some r => [("ipv4", r)] | None => [] end
   ++ match ipv6 vrf with Some r => [("ipv6", r)] | None => [] end)%list.

(** The errors of the specification, as the code raises them.
    [VrfMismatch]: the [HyperglassError] of [get_device_vrf], with the
    requested VRF as its keyword.  [AfiMismatch]: the attribute access on an
    absent sub-record, which is [None].  [TemplateNotFound]: the attribute
    access that fails along the path into the command catalog. *)
Definition VrfMismatch (query_vrf : option string) (e : exn) : Prop :=
  e = HyperglassError "Unable to match query VRF to any configured VRFs" "danger"
        [query_vrf].

Definition AfiMismatch (e : exn) : Prop :=
  exists attr, e = AttributeError NoneType attr.

Definition TemplateNotFound (e : exn) : Prop :=
  exists attr, e = AttributeError ObjectType attr \/ e = AttributeError StrType attr.

(** The artifact of [bgp_community] or [bgp_aspath] for one populated
    family: the REST payload, or the command line rendered from the template
    of that family. *)
Definition fanout_artifact (E : Env) (self : Construct) (query_type : string)
  (template : string -> string) (family : string * AfiRecord) : artifact :=
  if transport self =? "rest" then
    JsonDumps (payload_fanout query_type (vrf_name (snd family))
                 (get_cmd_type (fst family) (query_vrf self)) (query_target self) JNull)
  else
    CommandLine (str_format E (template (fst family))
                   {| kw_target := query_target self;
                      kw_source := source_address (snd family);
                      kw_vrf := vrf_name (snd family) |}).

(** The error a query for one target raises when the resolved VRF has no
    sub-record for the family of the target: with ["rest"], the access to
    [vrf_name] on [None]; with ["scrape"], the failure of the template lookup
    if there is one, since the lookup comes first, and else the access to
    [source_address] on [None]. *)
Definition absent_family_error (E : Env) (self : Construct) (cmd_type query_type : string)
  : exn :=
  if transport self =? "rest" then AttributeError NoneType "vrf_name"
  else
    match device_commands E (Device.commands (device self)) cmd_type query_type with
    | Raise e => e
    | Ok (PyObject _) => AttributeError ObjectType "format"
    | Ok (PyStr _) => AttributeError NoneType "source_address"
    end.

(** An artifact built for the query type, the target and the VRF of the
    query: what is left to vary is the family [afi], which gives the command
    type, and its sub-record [r], which gives the source address and the
    name of the routing table. *)
Definition built_for (E : Env) (self : Construct) (query_type target : string)
  (a : artifact) : Prop :=
  exists afi r,
    In (afi, r) (families (device_vrf self))
    /\ ((exists d,
           a = JsonDumps d
           /\ field "query_type" d = Some (JString query_type)
           /\ field "target" d = Some (JString target)
           /\ field "afi" d = Some (JString (get_cmd_type afi (query_vrf self)))
           /\ field "vrf" d = Some (JString (vrf_name r))
           /\ (field "source" d = Some JNull
               \/ exists address,
                    source_address r = Some address
                    /\ field "source" d = Some (JString (compressed address))))
        \/ (exists template,
              device_commands E (Device.commands (device self))
                (get_cmd_type afi (query_vrf self)) query_type
              = Ok (PyStr template)
              /\ a = CommandLine
                       (str_format E template
                          {| kw_target := target;
                             kw_source := source_address r;
                             kw_vrf := vrf_name r |}))).

(** [c in s], for a character and a string. *)
Fixpoint contains (c : ascii) (s : string) : bool :=
  match s with
  | EmptyString => false
  | String c' rest => Ascii.eqb c' c || contains c rest
  end.

(** The five operations of [Construct], and the three that take one target. *)
Definition operations : list (Env -> Construct -> result (list artifact)) :=
  [ping; traceroute; bgp_route; bgp_community; bgp_aspath].

Definition single_target_operations : list (Env -> Construct -> result (list artifact)) :=
  [ping; traceroute; bgp_route].

(** The operations with the query type each writes into its artifacts. *)
Definition operation_named (op : Env -> Construct -> result (list artifact))
  (query_type : string) : Prop :=
  (op = ping /\ query_type = "ping")
  \/ (op = traceroute /\ query_type = "traceroute")
  \/ (op = bgp_route /\ query_type = "bgp_route")
  \/ (op = bgp_community /\ query_type = "bgp_community")
  \/ (op = bgp_aspath /\ query_type = "bgp_aspath").

(** An artifact of the kind a transport asks for: a JSON text for ["rest"],
    a command line for ["scrape"]. *)
Definition kind_matches (transport : string) (a : artifact) : bool :=
  match a with
  | JsonDumps _ => transport =? "rest"
  | CommandLine _ => transport =? "scrape"
  end.

(** The four command types an address family and a VRF name can give. *)
Definition command_types : list string :=
  ["ipv4_default"; "ipv4_vpn"; "ipv6_default"; "ipv6_vpn"].

(** The imports with another command catalog. *)
Definition with_commands (E : Env) (catalog : pyobj) : Env :=
  {| commands := catalog;
     target_format_space := target_format_space E;
     ip_network_version := ip_network_version E;
     str_format := str_format E |}.

(** ** Properties *)

Lemma append_suffix_neq : forall p : string, p ++ "_vpn" <> p ++ "_default".
Proof.
  induction p as [| c p IH]; simpl.
  - discriminate.
  - intros H. injection H as H. exact (IH H).
Qed.

Lemma truthy_str_spec : forall v,
  truthy_str v = true <-> exists s, v = Some s /\ s <> "".
Proof.
  intros [s |]; simpl.
  - rewrite negb_true_iff, String.eqb_neq. split.
    + intros H. exists s. auto.
    + intros (s' & Hs & Hne). injection Hs as ->. exact Hne.
  - split; [discriminate | intros (s & Hs & _); discriminate].
Qed.

Lemma named_vrf_spec : forall v,
  truthy_str v && negb (str_eq "default" v) = true
  <-> exists s, v = Some s /\ s <> "" /\ s <> "default".
Proof.
  intros v. rewrite andb_true_iff, truthy_str_spec, negb_true_iff. split.
  - intros ((s & -> & Hne) & Hd). exists s. repeat split; auto.
    unfold str_eq in Hd. apply String.eqb_neq in Hd. congruence.
  - intros (s & -> & Hne & Hd). split.
    + exists s. auto.
    + unfold str_eq. apply String.eqb_neq. congruence.
Qed.

(** C6. [get_cmd_type afi v] is [afi ++ "_vpn"] exactly when [v] is a
    non-empty string other than ["default"], and [afi ++ "_default"]
    otherwise, that is when [v] is [None], empty or ["default"]; the three
    values the specification lists are as it gives them. *)
Theorem get_cmd_type_spec : forall (afi : string) (v : option string),
  (get_cmd_type afi v = afi ++ "_vpn"
   <-> exists s, v = Some s /\ s <> "" /\ s <> "default")
  /\ (get_cmd_type afi v = afi ++ "_default"
      <-> ~ exists s, v = Some s /\ s <> "" /\ s <> "default")
  /\ get_cmd_type "ipv4" (Some "default") = "ipv4_default"
  /\ get_cmd_type "ipv4" (Some "CUSTOMER-A") = "ipv4_vpn"
  /\ get_cmd_type "ipv6" None = "ipv6_default".
Proof.
  intros afi v. rewrite <- named_vrf_spec. unfold get_cmd_type.
  destruct (truthy_str v && negb (str_eq "default" v)).
  - repeat split; try reflexivity; auto.
    + intros H. exfalso. exact (append_suffix_neq afi H).
    + intros H. exfalso. apply H. reflexivity.
  - repeat split; try reflexivity; auto; try discriminate.
    intros H. exfalso. symmetry in H. exact (append_suffix_neq afi H).
Qed.

(** *** Resolution of the VRF *)

Lemma str_eq_true : forall n v, str_eq n v = true <-> Some n = v.
Proof.
  intros n [q |]; simpl.
  - rewrite String.eqb_eq. split; congruence.
  - split; discriminate.
Qed.

Lemma str_eq_false : forall n v, str_eq n v = false <-> Some n <> v.
Proof.
  intros n v. rewrite <- str_eq_true. destruct (str_eq n v); split; congruence.
Qed.

Section MatchVrf.
Variable V : option string.

Let step (_device_vrf : option Vrf) (vrf : Vrf) : option Vrf :=
  if str_eq (name vrf) V then Some vrf else _device_vrf.

Let unnamed (w : Vrf) : Prop := Some (name w) <> V.

Lemma loop_no_match : forall vrfs acc,
  Forall unnamed vrfs -> fold_left step vrfs acc = acc.
Proof.
  induction vrfs as [| w vrfs IH]; intros acc H; simpl.
  - reflexivity.
  - inversion H as [| ? ? Hw Hrest]; subst.
    rewrite IH by assumption. unfold step.
    apply str_eq_false in Hw. now rewrite Hw.
Qed.

Lemma loop_last_match : forall before vrf after acc,
  Some (name vrf) = V -> Forall unnamed after ->
  fold_left step (before ++ vrf :: after) acc = Some vrf.
Proof.
  intros before vrf after acc Hv Hafter.
  rewrite fold_left_app. simpl. rewrite loop_no_match by assumption.
  unfold step. apply str_eq_true in Hv. now rewrite Hv.
Qed.

Lemma last_match_or_none : forall vrfs,
  (exists before vrf after,
      vrfs = (before ++ vrf :: after)%list /\ Some (name vrf) = V /\ Forall unnamed after)
  \/ Forall unnamed vrfs.
Proof.
  induction vrfs as [| w vrfs [(before & vrf & after & -> & Hv & Hafter) | Hnone]].
  - right. constructor.
  - left. exists (w :: before), vrf, after. auto.
  - destruct (str_eq (name w) V) eqn:Hw.
    + left. exists [], w, vrfs. apply str_eq_true in Hw. auto.
    + right. constructor; [apply str_eq_false; exact Hw | exact Hnone].
Qed.

Lemma match_vrf_last : forall before vrf after,
  Some (name vrf) = V -> Forall unnamed after ->
  match_vrf V (before ++ vrf :: after) = Some vrf.
Proof. intros. unfold match_vrf. now apply loop_last_match. Qed.

Lemma match_vrf_none : forall vrfs,
  Forall unnamed vrfs -> match_vrf V vrfs = None.
Proof. intros. unfold match_vrf. now apply loop_no_match. Qed.
End MatchVrf.

(** C2. Construction resolves the record of the device named [query_vrf],
    the last such record of the list when several have that name, and the
    instance holds it; when no record has that name, construction raises the
    [HyperglassError] whose keyword is the requested VRF.  One of the two
    holds for every device and query. *)
Theorem init_resolves_vrf : forall (device : Device.t) (query_data : Query.t)
    (transport : string),
  (exists before vrf after,
      Device.vrfs device = (before ++ vrf :: after)%list
      /\ Some (name vrf) = Query.query_vrf query_data
      /\ Forall (fun w => Some (name w) <> Query.query_vrf query_data) after
      /\ init device query_data transport
         = Ok (constructed device query_data transport vrf))
  \/ (Forall (fun w => Some (name w) <> Query.query_vrf query_data) (Device.vrfs device)
      /\ exists e, init device query_data transport = Raise e
                   /\ VrfMismatch (Query.query_vrf query_data) e).
Proof.
  intros device query_data transport.
  destruct (last_match_or_none (Query.query_vrf query_data) (Device.vrfs device))
    as [(before & vrf & after & Hl & Hv & Hafter) | Hnone].
  - left. exists before, vrf, after. repeat split; try assumption.
    unfold init, get_device_vrf. rewrite Hl.
    rewrite (match_vrf_last _ before vrf after Hv Hafter). reflexivity.
  - right. split; [assumption |].
    unfold init, get_device_vrf. rewrite (match_vrf_none _ _ Hnone).
    eexists. split; reflexivity.
Qed.

(** With two records named ["default"], the second is the one resolved. *)
Example init_duplicate_names :
  init {| Device.nos := "cisco_ios"; Device.commands := "cisco_ios";
          Device.vrfs := [vrf_default; vrf_customer; vrf_default_again] |}
       (example_query "192.0.2.1" "default") "rest"
  = Ok (constructed
          {| Device.nos := "cisco_ios"; Device.commands := "cisco_ios";
             Device.vrfs := [vrf_default; vrf_customer; vrf_default_again] |}
          (example_query "192.0.2.1" "default") "rest" vrf_default_again).
Proof. reflexivity. Qed.

Example init_unknown_vrf :
  init (router "cisco_ios") (example_query "192.0.2.1" "nope") "rest"
  = Raise (HyperglassError "Unable to match query VRF to any configured VRFs" "danger"
             [Some "nope"]).
Proof. reflexivity. Qed.

(** *** Steps shared by the operations *)

Lemma getattr_vrf_family : forall vrf version,
  getattr_vrf vrf ("ipv" ++ version_digit version) = Ok (of_afi (family_record vrf version)).
Proof. intros vrf [|]; reflexivity. Qed.

Lemma populated_afis_families : forall vrf,
  populated_afis vrf = map fst (families vrf).
Proof.
  intros vrf. unfold populated_afis, families, vrf_dict.
  destruct (ipv4 vrf), (ipv6 vrf); reflexivity.
Qed.

Lemma getattr_vrf_populated : forall vrf afi r,
  In (afi, r) (families vrf) -> getattr_vrf vrf afi = Ok (VAfi r).
Proof.
  intros vrf afi r. unfold families, getattr_vrf, vrf_dict.
  destruct (ipv4 vrf) as [r4 |], (ipv6 vrf) as [r6 |]; simpl;
    intros H; repeat destruct H as [H | H]; try contradiction;
    injection H as <- <-; reflexivity.
Qed.

Lemma scrape_is_not_rest : ("scrape" =? "rest") = false.
Proof. reflexivity. Qed.

(** Reduction of an operation once the transport and the results of its
    steps are known. *)
Ltac step_op :=
  repeat first
    [ progress cbn [bind app of_afi get_vrf_name get_source_address get_compressed
                      get_format type_of]
    | rewrite getattr_vrf_family
    | rewrite String.eqb_refl
    | rewrite scrape_is_not_rest
    | match goal with
      | H : ?x = _ |- context [?x] => rewrite H
      end ].

(** *** Formatting of the target of [bgp_route] *)

(** [sub_slash] changes every ["/"] into a space and nothing else. *)
Lemma sub_slash_spec : forall target,
  String.length (sub_slash target) = String.length target
  /\ forall n,
       String.get n (sub_slash target)
       = option_map (fun c => if Ascii.eqb c "/"%char then " "%char else c)
           (String.get n target).
Proof.
  induction target as [| c target [IHlen IHget]]; simpl.
  - split; [reflexivity | intros n; reflexivity].
  - split; [now rewrite IHlen |].
    intros [| n]; [reflexivity | apply IHget].
Qed.

Example run_bgp_route_cisco :
  run example_env bgp_route (router "cisco_ios") (example_query "192.0.2.0/24" "default")
    "scrape"
  = Ok [CommandLine "show bgp ipv4 unicast 192.0.2.0/24"].
Proof. reflexivity. Qed.

Example run_bgp_route_huawei :
  run example_env bgp_route (router "huawei") (example_query "192.0.2.0/24" "default")
    "scrape"
  = Ok [CommandLine "display bgp routing-table 192.0.2.0 24"].
Proof. reflexivity. Qed.

(** C1, as the code has it.  On a device whose NOS is in
    [target_format_space], [bgp_route] puts the target with every ["/"]
    replaced by a space in the command line and in the ["target"] field of the
    REST payload alike; ["192.0.2.0/24"] becomes ["192.0.2.0 24"]. *)
Theorem bgp_route_target_formatted : forall (E : Env) (self : Construct)
    (version : ip_version) (r : AfiRecord),
  mem (Device.nos (device self)) (target_format_space E) = true ->
  ip_network_version E (query_target self) = Ok version ->
  family_record (device_vrf self) version = Some r ->
  (transport self = "rest" ->
   bgp_route E self
   = Ok [JsonDumps
           (payload "bgp_route" (vrf_name r)
              (get_cmd_type ("ipv" ++ version_digit version) (query_vrf self))
              JNull (sub_slash (query_target self)))])
  /\ (forall template,
      transport self = "scrape" ->
      device_commands E (Device.commands (device self))
        (get_cmd_type ("ipv" ++ version_digit version) (query_vrf self)) "bgp_route"
      = Ok (PyStr template) ->
      bgp_route E self
      = Ok [CommandLine
              (str_format E template
                 {| kw_target := sub_slash (query_target self);
                    kw_source := source_address r;
                    kw_vrf := vrf_name r |})])
  /\ sub_slash "192.0.2.0/24" = "192.0.2.0 24".
Proof.
  intros E self version r Hnos Hip Hfam.
  repeat split; try intros template; try intros Ht; try intros Hcmd;
    unfold bgp_route, format_target; step_op; reflexivity.
Qed.

Lemma bgp_route_target_formatted_witness :
  bgp_route example_env
    (constructed (router "huawei") (example_query "192.0.2.0/24" "default") "rest"
       vrf_default)
  = Ok [JsonDumps (payload "bgp_route" "default" "ipv4_default" JNull "192.0.2.0 24")]
  /\ bgp_route example_env
       (constructed (router "huawei") (example_query "192.0.2.0/24" "default") "scrape"
          vrf_default)
     = Ok [CommandLine "display bgp routing-table 192.0.2.0 24"].
Proof.
  split.
  - exact (proj1 (bgp_route_target_formatted example_env
                    (constructed (router "huawei") (example_query "192.0.2.0/24" "default")
                       "rest" vrf_default)
                    V4 {| vrf_name := "default";
                          source_address := Some {| compressed := "192.0.2.1" |} |}
                    eq_refl eq_refl eq_refl) eq_refl).
  - exact (proj1 (proj2 (bgp_route_target_formatted example_env
                    (constructed (router "huawei") (example_query "192.0.2.0/24" "default")
                       "scrape" vrf_default)
                    V4 {| vrf_name := "default";
                          source_address := Some {| compressed := "192.0.2.1" |} |}
                    eq_refl eq_refl eq_refl))
             "display bgp routing-table {target}" eq_refl eq_refl).
Defined.

(** The REST payload of [bgp_route] on a NOS of [target_format_space] does
    not carry the target as the query has it. *)
Lemma bgp_route_rest_target_not_raw :
  mem "huawei" (target_format_space example_env) = true
  /\ init (router "huawei") (example_query "192.0.2.0/24" "default") "rest"
     = Ok (constructed (router "huawei") (example_query "192.0.2.0/24" "default") "rest"
             vrf_default)
  /\ exists d,
       bgp_route example_env
         (constructed (router "huawei") (example_query "192.0.2.0/24" "default") "rest"
            vrf_default)
       = Ok [JsonDumps d]
       /\ field "target" d = Some (JString "192.0.2.0 24")
       /\ field "target" d <> Some (JString "192.0.2.0/24").
Proof.
  split; [reflexivity | split; [reflexivity |]].
  eexists. split; [reflexivity | split; [reflexivity | discriminate]].
Qed.

(** *** Fan-out over the address families *)

Lemma for_each_map : forall (A B C : Type) (f : A -> B) (g : A -> C)
    (body : B -> list C -> result (list C)) (l : list A) (query : list C),
  (forall x q, In x l -> body (f x) q = Ok (q ++ [g x])%list) ->
  for_each (map f l) body query = Ok (query ++ map g l)%list.
Proof.
  intros A B C f g body l. induction l as [| x l IH]; intros query H; simpl.
  - now rewrite app_nil_r.
  - rewrite (H x query) by (left; reflexivity). cbn [bind].
    rewrite IH by (intros; apply H; right; assumption).
    now rewrite <- app_assoc.
Qed.

Lemma families_cases : forall vrf,
  families vrf
  = match ipv4 vrf, ipv6 vrf with
    | Some r4, Some r6 => [("ipv4", r4); ("ipv6", r6)]
    | Some r4, None => [("ipv4", r4)]
    | None, Some r6 => [("ipv6", r6)]
    | None, None => []
    end.
Proof. intros vrf. unfold families. destruct (ipv4 vrf), (ipv6 vrf); reflexivity. Qed.

(** C3. With the REST transport, or with the CLI transport when the catalog
    has a template for every populated family, [bgp_community] and
    [bgp_aspath] return one artifact for each address family populated on
    the resolved VRF and nothing else, [ipv4] before [ipv6]: two artifacts
    when both families are populated, one when only one is, and an absent
    family adds no artifact and raises nothing. *)
Theorem fanout_one_artifact_per_family : forall (E : Env) (self : Construct)
    (op : Env -> Construct -> result (list artifact)) (query_type : string)
    (template : string -> string),
  (op = bgp_community /\ query_type = "bgp_community")
  \/ (op = bgp_aspath /\ query_type = "bgp_aspath") ->
  transport self = "rest"
  \/ (transport self = "scrape"
      /\ forall afi r,
           In (afi, r) (families (device_vrf self)) ->
           device_commands E (Device.commands (device self))
             (get_cmd_type afi (query_vrf self)) query_type
           = Ok (PyStr (template afi))) ->
  op E self
  = Ok (map (fanout_artifact E self query_type template) (families (device_vrf self)))
  /\ families (device_vrf self)
     = match ipv4 (device_vrf self), ipv6 (device_vrf self) with
       | Some r4, Some r6 => [("ipv4", r4); ("ipv6", r6)]
       | Some r4, None => [("ipv4", r4)]
       | None, Some r6 => [("ipv6", r6)]
       | None, None => []
       end
  /\ length (map (fanout_artifact E self query_type template) (families (device_vrf self)))
     = match ipv4 (device_vrf self), ipv6 (device_vrf self) with
       | Some _, Some _ => 2
       | Some _, None | None, Some _ => 1
       | None, None => 0
       end.
Proof.
  intros E self op query_type template Hop H.
  split; [| split; [apply families_cases |]].
  - destruct Hop as [(-> & ->) | (-> & ->)];
      unfold bgp_community, bgp_aspath; cbv zeta; rewrite populated_afis_families;
      rewrite <- (app_nil_l (map (fanout_artifact _ _ _ _) _));
      apply for_each_map; intros [afi r] q Hin; cbn [fst];
      rewrite (getattr_vrf_populated _ _ _ Hin); unfold fanout_artifact; cbn [fst snd];
      (destruct H as [Ht | [Ht Hcmd]]; rewrite Ht;
       [| rewrite (Hcmd afi r Hin)]); step_op; reflexivity.
  - rewrite length_map, families_cases.
    destruct (ipv4 (device_vrf self)), (ipv6 (device_vrf self)); reflexivity.
Qed.

Lemma fanout_one_artifact_per_family_witness :
  bgp_community example_env
    (constructed (router "cisco_ios") (example_query "65000:1" "default") "rest" vrf_default)
  = Ok [JsonDumps (payload_fanout "bgp_community" "default" "ipv4_default" "65000:1" JNull);
        JsonDumps (payload_fanout "bgp_community" "default" "ipv6_default" "65000:1" JNull)]
  /\ bgp_aspath example_env
       (constructed (router "cisco_ios") (example_query "_65000$" "CUSTOMER-A") "scrape"
          vrf_customer)
     = Ok [CommandLine "show bgp vpnv4 unicast vrf customer_a regexp _65000$"].
Proof.
  split.
  - exact (proj1 (fanout_one_artifact_per_family example_env
                    (constructed (router "cisco_ios") (example_query "65000:1" "default")
                       "rest" vrf_default)
                    bgp_community "bgp_community" (fun _ => EmptyString)
                    (or_introl (conj eq_refl eq_refl)) (or_introl eq_refl))).
  - refine (proj1 (fanout_one_artifact_per_family example_env
                    (constructed (router "cisco_ios") (example_query "_65000$" "CUSTOMER-A")
                       "scrape" vrf_customer)
                    bgp_aspath "bgp_aspath"
                    (fun _ => "show bgp vpnv4 unicast vrf {vrf} regexp {target}")
                    (or_intror (conj eq_refl eq_refl)) (or_intror (conj eq_refl _)))).
    intros afi r Hf. simpl in Hf.
    destruct Hf as [Hf | []]. injection Hf as <- <-. reflexivity.
Defined.

(** *** A target whose family the VRF does not have *)

Lemma device_commands_raises : forall E nos afi query_type e,
  device_commands E nos afi query_type = Raise e -> TemplateNotFound e.
Proof.
  intros E nos afi query_type e. unfold device_commands, attrgetter.
  generalize (commands E). generalize (split_dot (nos ++ "." ++ afi ++ "." ++ query_type)).
  induction l as [| n l IH]; intros o; simpl.
  - discriminate.
  - destruct o as [s | attrs]; simpl.
    + intros H. injection H as <-. exists n. auto.
    + destruct (find (fun kv => fst kv =? n) attrs) as [kv |]; simpl.
      * apply IH.
      * intros H. injection H as <-. exists n. auto.
Qed.

(** C4, as the code has it.  [ping], [traceroute] and [bgp_route] look up
    the sub-record of the family of the target, ["ipv4"] or ["ipv6"] after
    the version of [ip_network(query_target)].  When the resolved VRF has no
    such sub-record they raise an [AttributeError] and return no artifact:
    the one of the access on the absent sub-record, unless the query is a CLI
    query whose template is absent from the catalog, in which case the
    failure of the template lookup is raised first. *)
Theorem absent_family_raises : forall (E : Env) (self : Construct) (version : ip_version),
  transport self = "rest" \/ transport self = "scrape" ->
  ip_network_version E (query_target self) = Ok version ->
  family_record (device_vrf self) version = None ->
  getattr_vrf (device_vrf self) ("ipv" ++ version_digit version) = Ok VNone
  /\ ping E self
     = Raise (absent_family_error E self
                (get_cmd_type ("ipv" ++ version_digit version) (query_vrf self)) "ping")
  /\ traceroute E self
     = Raise (absent_family_error E self
                (get_cmd_type ("ipv" ++ version_digit version) (query_vrf self))
                "traceroute")
  /\ bgp_route E self
     = Raise (absent_family_error E self
                (get_cmd_type ("ipv" ++ version_digit version) (query_vrf self))
                "bgp_route")
  /\ forall cmd_type query_type,
       AfiMismatch (absent_family_error E self cmd_type query_type)
       \/ (transport self = "scrape"
           /\ TemplateNotFound (absent_family_error E self cmd_type query_type)
           /\ forall template,
                device_commands E (Device.commands (device self)) cmd_type query_type
                <> Ok (PyStr template)).
Proof.
  intros E self version Ht Hip Hfam.
  split; [rewrite getattr_vrf_family, Hfam; reflexivity |].
  repeat split.
  - unfold ping, absent_family_error.
    destruct Ht as [Ht | Ht]; step_op; [reflexivity |].
    destruct (device_commands _ _ _ _) as [[s | attrs] | e]; reflexivity.
  - unfold traceroute, absent_family_error.
    destruct Ht as [Ht | Ht]; step_op; [reflexivity |].
    destruct (device_commands _ _ _ _) as [[s | attrs] | e]; reflexivity.
  - unfold bgp_route, absent_family_error.
    destruct Ht as [Ht | Ht]; step_op; [reflexivity |].
    destruct (device_commands _ _ _ _) as [[s | attrs] | e]; reflexivity.
  - intros cmd_type query_type. unfold absent_family_error.
    destruct Ht as [Ht | Ht]; rewrite Ht.
    + rewrite String.eqb_refl. left. exists "vrf_name". reflexivity.
    + rewrite scrape_is_not_rest.
      destruct (device_commands _ _ _ _) as [[s | attrs] | e] eqn:Hcmd.
      * left. exists "source_address". reflexivity.
      * right. repeat split; [exists "format"; auto | discriminate].
      * right. repeat split; [exact (device_commands_raises _ _ _ _ _ Hcmd) | discriminate].
Qed.

Lemma absent_family_raises_witness :
  ping example_env
    (constructed (router "cisco_ios") (example_query "192.0.2.1" "V6") "rest" vrf_v6only)
  = Raise (AttributeError NoneType "vrf_name")
  /\ bgp_route example_env
       (constructed (router "cisco_ios") (example_query "192.0.2.1" "V6") "scrape"
          vrf_v6only)
     = Raise (AttributeError NoneType "source_address").
Proof.
  split.
  - exact (proj1 (proj2 (absent_family_raises example_env
                    (constructed (router "cisco_ios") (example_query "192.0.2.1" "V6")
                       "rest" vrf_v6only)
                    V4 (or_introl eq_refl) eq_refl eq_refl))).
  - exact (proj1 (proj2 (proj2 (proj2 (absent_family_raises example_env
                    (constructed (router "cisco_ios") (example_query "192.0.2.1" "V6")
                       "scrape" vrf_v6only)
                    V4 (or_intror eq_refl) eq_refl eq_refl))))).
Defined.

(** A CLI [traceroute] to an IPv4 target in a VRF without IPv4, on a device
    whose catalog has no such template: the error raised is the one of the
    template lookup, not the one of the absent sub-record. *)
Lemma absent_family_other_error :
  init (router "cisco_ios") (example_query "192.0.2.1" "V6") "scrape"
  = Ok (constructed (router "cisco_ios") (example_query "192.0.2.1" "V6") "scrape"
          vrf_v6only)
  /\ ip_network_version example_env "192.0.2.1" = Ok V4
  /\ family_record vrf_v6only V4 = None
  /\ traceroute example_env
       (constructed (router "cisco_ios") (example_query "192.0.2.1" "V6") "scrape"
          vrf_v6only)
     = Raise (AttributeError ObjectType "traceroute")
  /\ device_commands example_env "cisco_ios" "ipv4_vpn" "traceroute"
     = Raise (AttributeError ObjectType "traceroute")
  /\ ~ AfiMismatch (AttributeError ObjectType "traceroute").
Proof.
  repeat split; try reflexivity.
  intros [attr H]. discriminate H.
Qed.

(** *** A template absent from the catalog *)

Lemma for_each_raises : forall (A B : Type) (P : exn -> Prop)
    (body : A -> list B -> result (list B)) (l : list A) (query : list B),
  (forall x q e, In x l -> body x q = Raise e -> P e) ->
  (exists x, In x l /\ forall q, exists e, body x q = Raise e) ->
  exists e, for_each l body query = Raise e /\ P e.
Proof.
  intros A B P body l. induction l as [| x l IH]; intros query Hall (y & Hy & Hfail).
  - destruct Hy.
  - simpl. destruct (body x query) as [q' | e] eqn:Hx.
    + cbn [bind]. apply IH.
      * intros x' q e Hin. apply Hall. right. exact Hin.
      * destruct Hy as [-> | Hy].
        -- destruct (Hfail query) as [e He]. congruence.
        -- exists y. auto.
    + exists e. split; [reflexivity |]. apply (Hall x query). { left. reflexivity. } exact Hx.
Qed.

Lemma get_format_raises : forall E cmd e,
  get_format E cmd = Raise e -> TemplateNotFound e.
Proof.
  intros E [s | attrs] e; simpl; [discriminate |].
  intros H. injection H as <-. exists "format". auto.
Qed.

(** C7. For a CLI query, when the path [nos.command_type.query_type] leads to
    no template in the catalog, the operation raises the [AttributeError] of
    that lookup and returns no list at all: for [ping], [traceroute] and
    [bgp_route] the lookup of the command type of the target's family, for
    [bgp_community] and [bgp_aspath] a lookup for a populated family; an
    artifact appended for an earlier family is lost with the list. *)
Theorem absent_template_raises : forall (E : Env) (self : Construct),
  transport self = "scrape" ->
  (forall version e,
      ip_network_version E (query_target self) = Ok version ->
      (device_commands E (Device.commands (device self))
         (get_cmd_type ("ipv" ++ version_digit version) (query_vrf self)) "ping" = Raise e ->
       ping E self = Raise e /\ TemplateNotFound e)
      /\ (device_commands E (Device.commands (device self))
            (get_cmd_type ("ipv" ++ version_digit version) (query_vrf self)) "traceroute"
          = Raise e ->
          traceroute E self = Raise e /\ TemplateNotFound e)
      /\ (device_commands E (Device.commands (device self))
            (get_cmd_type ("ipv" ++ version_digit version) (query_vrf self)) "bgp_route"
          = Raise e ->
          bgp_route E self = Raise e /\ TemplateNotFound e))
  /\ (forall afi r e,
        In (afi, r) (families (device_vrf self)) ->
        (device_commands E (Device.commands (device self))
           (get_cmd_type afi (query_vrf self)) "bgp_community" = Raise e ->
         exists e', bgp_community E self = Raise e' /\ TemplateNotFound e')
        /\ (device_commands E (Device.commands (device self))
              (get_cmd_type afi (query_vrf self)) "bgp_aspath" = Raise e ->
            exists e', bgp_aspath E self = Raise e' /\ TemplateNotFound e')).
Proof.
  intros E self Ht. split.
  - intros version e Hip.
    split; [| split]; intros Hcmd;
      (split; [| exact (device_commands_raises _ _ _ _ _ Hcmd)]);
      unfold ping, traceroute, bgp_route; step_op; reflexivity.
  - intros afi r e Hin. split; intros Hcmd.
    + unfold bgp_community. cbv zeta. rewrite populated_afis_families.
      apply for_each_raises.
      * clear Hcmd Hin.
        intros x q e' Hx. apply in_map_iff in Hx. destruct Hx as ([afi' r'] & <- & Hx).
        cbn [fst]. rewrite (getattr_vrf_populated _ _ _ Hx). step_op.
        destruct (device_commands _ _ _ _) as [cmd |] eqn:Hc; cbn [bind].
        -- destruct (get_format E cmd) eqn:Hf; cbn [bind get_source_address get_vrf_name].
           ++ discriminate.
           ++ intros H. injection H as <-. exact (get_format_raises _ _ _ Hf).
        -- intros H. injection H as <-. exact (device_commands_raises _ _ _ _ _ Hc).
      * exists afi. split; [apply in_map_iff; exists (afi, r); auto |].
        intros q. exists e. rewrite (getattr_vrf_populated _ _ _ Hin). step_op. reflexivity.
    + unfold bgp_aspath. cbv zeta. rewrite populated_afis_families.
      apply for_each_raises.
      * clear Hcmd Hin.
        intros x q e' Hx. apply in_map_iff in Hx. destruct Hx as ([afi' r'] & <- & Hx).
        cbn [fst]. rewrite (getattr_vrf_populated _ _ _ Hx). step_op.
        destruct (device_commands _ _ _ _) as [cmd |] eqn:Hc; cbn [bind].
        -- destruct (get_format E cmd) eqn:Hf; cbn [bind get_source_address get_vrf_name].
           ++ discriminate.
           ++ intros H. injection H as <-. exact (get_format_raises _ _ _ Hf).
        -- intros H. injection H as <-. exact (device_commands_raises _ _ _ _ _ Hc).
      * exists afi. split; [apply in_map_iff; exists (afi, r); auto |].
        intros q. exists e. rewrite (getattr_vrf_populated _ _ _ Hin). step_op. reflexivity.
Qed.

Lemma absent_template_raises_witness :
  traceroute example_env
    (constructed (router "cisco_ios") (example_query "192.0.2.1" "CUSTOMER-A") "scrape"
       vrf_customer)
  = Raise (AttributeError ObjectType "traceroute")
  /\ exists e,
       bgp_aspath example_env
         (constructed (router "cisco_ios") (example_query "_65000$" "default") "scrape"
            vrf_default)
       = Raise e
       /\ TemplateNotFound e.
Proof.
  split.
  - exact (proj1 (proj1 (proj2 (proj1 (absent_template_raises example_env
             (constructed (router "cisco_ios") (example_query "192.0.2.1" "CUSTOMER-A")
                "scrape" vrf_customer) eq_refl)
             V4 (AttributeError ObjectType "traceroute") eq_refl)) eq_refl)).
  - refine (proj2 (proj2 (absent_template_raises example_env
             (constructed (router "cisco_ios") (example_query "_65000$" "default")
                "scrape" vrf_default) eq_refl)
             "ipv6" {| vrf_name := "default";
                       source_address := Some {| compressed := "2001:db8::1" |} |}
             (AttributeError ObjectType "bgp_aspath") _) eq_refl).
    simpl. right. left. reflexivity.
Defined.

(** *** The source address of [ping] and [traceroute] *)

(** C10. With the REST transport, [ping] and [traceroute] read
    [source_address.compressed] without a test: when the sub-record of the
    target's family has no source address they raise the [AttributeError] of
    that access on [None] and return no artifact, hence none with a null
    source. *)
Theorem absent_source_address_raises : forall (E : Env) (self : Construct)
    (version : ip_version) (r : AfiRecord),
  transport self = "rest" ->
  ip_network_version E (query_target self) = Ok version ->
  family_record (device_vrf self) version = Some r ->
  source_address r = None ->
  ping E self = Raise (AttributeError NoneType "compressed")
  /\ traceroute E self = Raise (AttributeError NoneType "compressed").
Proof.
  intros E self version r Ht Hip Hfam Hsrc.
  split; unfold ping, traceroute; step_op; reflexivity.
Qed.

Lemma absent_source_address_raises_witness :
  ping example_env
    (constructed (router "cisco_ios") (example_query "192.0.2.1" "NOSRC") "rest"
       vrf_nosource)
  = Raise (AttributeError NoneType "compressed").
Proof.
  exact (proj1 (absent_source_address_raises example_env
                  (constructed (router "cisco_ios") (example_query "192.0.2.1" "NOSRC")
                     "rest" vrf_nosource)
                  V4 {| vrf_name := "nosrc"; source_address := None |}
                  eq_refl eq_refl eq_refl eq_refl)).
Defined.

(** *** A transport that is neither ["rest"] nor ["scrape"] *)

Lemma for_each_skip : forall (A B : Type) (body : A -> list B -> result (list B))
    (l : list A) (query : list B),
  (forall x q, In x l -> body x q = Ok q) -> for_each l body query = Ok query.
Proof.
  intros A B body l. induction l as [| x l IH]; intros query H; simpl.
  - reflexivity.
  - rewrite H by (left; reflexivity). cbn [bind]. apply IH.
    intros x' q Hin. apply H. right. exact Hin.
Qed.

(** C9. With any other transport string no branch of an operation appends
    to the list: [bgp_community] and [bgp_aspath] return the empty list, and
    so do [ping], [traceroute] and [bgp_route] once the target has passed
    [ip_network], which the validated target of a query does; no attribute
    of the sub-record is read and nothing is raised. *)
Theorem other_transport_returns_nothing : forall (E : Env) (self : Construct),
  transport self <> "rest" ->
  transport self <> "scrape" ->
  bgp_community E self = Ok []
  /\ bgp_aspath E self = Ok []
  /\ forall version,
       ip_network_version E (query_target self) = Ok version ->
       ping E self = Ok [] /\ traceroute E self = Ok [] /\ bgp_route E self = Ok [].
Proof.
  intros E self Hrest Hscrape.
  apply String.eqb_neq in Hrest, Hscrape.
  split; [| split].
  - unfold bgp_community. cbv zeta. rewrite populated_afis_families.
    apply for_each_skip. intros x q Hx.
    apply in_map_iff in Hx. destruct Hx as ([afi r] & <- & Hx). cbn [fst].
    rewrite (getattr_vrf_populated _ _ _ Hx). step_op. reflexivity.
  - unfold bgp_aspath. cbv zeta. rewrite populated_afis_families.
    apply for_each_skip. intros x q Hx.
    apply in_map_iff in Hx. destruct Hx as ([afi r] & <- & Hx). cbn [fst].
    rewrite (getattr_vrf_populated _ _ _ Hx). step_op. reflexivity.
  - intros version Hip.
    repeat split; unfold ping, traceroute, bgp_route; step_op; reflexivity.
Qed.

Lemma other_transport_returns_nothing_witness :
  bgp_community example_env
    (constructed (router "cisco_ios") (example_query "65000:1" "default") "netconf"
       vrf_default)
  = Ok []
  /\ ping example_env
       (constructed (router "cisco_ios") (example_query "192.0.2.1" "V6") "netconf"
          vrf_v6only)
     = Ok [].
Proof.
  split.
  - refine (proj1 (other_transport_returns_nothing example_env
                     (constructed (router "cisco_ios") (example_query "65000:1" "default")
                        "netconf" vrf_default) _ _)); simpl; discriminate.
  - refine (proj1 (proj2 (proj2 (other_transport_returns_nothing example_env
                     (constructed (router "cisco_ios") (example_query "192.0.2.1" "V6")
                        "netconf" vrf_v6only) _ _)) V4 eq_refl)); simpl; discriminate.
Defined.

(** *** What the artifacts of one invocation hold *)

Lemma for_each_forall : forall (A B : Type) (P : B -> Prop)
    (body : A -> list B -> result (list B)) (l : list A) (query result : list B),
  (forall x q q', In x l -> Forall P q -> body x q = Ok q' -> Forall P q') ->
  Forall P query -> for_each l body query = Ok result -> Forall P result.
Proof.
  intros A B P body l. induction l as [| x l IH]; intros query result Hbody Hq; simpl.
  - intros H. injection H as <-. exact Hq.
  - destruct (body x query) as [q' | e] eqn:Hx; cbn [bind]; [| discriminate].
    apply IH.
    + intros x' q q'' Hin. apply Hbody. right. exact Hin.
    + apply (Hbody x query q'); auto. left. reflexivity.
Qed.

Lemma family_record_in : forall vrf version r,
  family_record vrf version = Some r ->
  In ("ipv" ++ version_digit version, r) (families vrf).
Proof.
  intros vrf [|] r; unfold families; simpl; intros ->.
  - left. reflexivity.
  - apply in_or_app. right. left. reflexivity.
Qed.

(** The ways [ping], [traceroute] and [bgp_route] return a list: [kind] is
    [true] for the first two, which read the source address for the REST
    payload, and [target] is the target as the operation embeds it. *)
Lemma single_target_returns : forall (E : Env) (self : Construct) (l : list artifact)
    (op : Env -> Construct -> result (list artifact)) (query_type target : string)
    (kind : bool),
  (op = ping /\ query_type = "ping" /\ target = query_target self /\ kind = true)
  \/ (op = traceroute /\ query_type = "traceroute" /\ target = query_target self
      /\ kind = true)
  \/ (op = bgp_route /\ query_type = "bgp_route"
      /\ target = format_target E self (query_target self) /\ kind = false) ->
  op E self = Ok l ->
  l = []
  \/ exists version r,
       ip_network_version E (query_target self) = Ok version
       /\ family_record (device_vrf self) version = Some r
       /\ ((exists source,
              l = [JsonDumps
                     (payload query_type (vrf_name r)
                        (get_cmd_type ("ipv" ++ version_digit version) (query_vrf self))
                        source target)]
              /\ if kind
                 then exists address,
                        source_address r = Some address
                        /\ source = JString (compressed address)
                 else source = JNull)
           \/ (exists template,
                 device_commands E (Device.commands (device self))
                   (get_cmd_type ("ipv" ++ version_digit version) (query_vrf self))
                   query_type
                 = Ok (PyStr template)
                 /\ l = [CommandLine
                           (str_format E template
                              {| kw_target := target;
                                 kw_source := source_address r;
                                 kw_vrf := vrf_name r |})])).
Proof.
  intros E self l op query_type target kind Hop H.
  destruct Hop as [(-> & -> & -> & ->) | [(-> & -> & -> & ->) | (-> & -> & -> & ->)]];
    unfold ping, traceroute, bgp_route in H;
    (destruct (ip_network_version E (query_target self)) as [version |] eqn:Hip;
     cbn [bind] in H; [| discriminate H]);
    rewrite getattr_vrf_family in H; cbn [bind] in H;
    (destruct (transport self =? "rest") eqn:Hrest;
     [| destruct (transport self =? "scrape") eqn:Hscrape;
        [| injection H as <-; left; reflexivity]]);
    (destruct (family_record (device_vrf self) version) as [r |] eqn:Hfam;
     cbn [of_afi get_vrf_name get_source_address bind type_of] in H);
    try (destruct (device_commands E _ _ _) as [[template | attrs] |] eqn:Hcmd;
         cbn [bind get_format get_source_address get_vrf_name type_of] in H);
    try discriminate H;
    try (destruct (source_address r) as [address |] eqn:Hsrc;
         cbn [bind get_compressed] in H; try discriminate H);
    injection H as <-; right; exists version, r; (split; [reflexivity |]);
    (split; [exact Hfam |]).
  all: try (left; eexists; split; [reflexivity |]; cbv iota;
            first [reflexivity | eexists; split; [eassumption | reflexivity]]).
  all: right; eexists; split; [exact Hcmd | rewrite ?Hsrc; reflexivity].
Qed.

(** The artifacts [bgp_community] and [bgp_aspath] return: each is the REST
    payload, or the command line, of a populated family. *)
Lemma fanout_returns : forall (E : Env) (self : Construct) (l : list artifact)
    (op : Env -> Construct -> result (list artifact)) (query_type : string),
  (op = bgp_community /\ query_type = "bgp_community")
  \/ (op = bgp_aspath /\ query_type = "bgp_aspath") ->
  op E self = Ok l ->
  Forall
    (fun a =>
       exists afi r,
         In (afi, r) (families (device_vrf self))
         /\ (a = JsonDumps
                   (payload_fanout query_type (vrf_name r)
                      (get_cmd_type afi (query_vrf self)) (query_target self) JNull)
             \/ exists template,
                  device_commands E (Device.commands (device self))
                    (get_cmd_type afi (query_vrf self)) query_type
                  = Ok (PyStr template)
                  /\ a = CommandLine
                           (str_format E template
                              {| kw_target := query_target self;
                                 kw_source := source_address r;
                                 kw_vrf := vrf_name r |})))
    l.
Proof.
  intros E self l op query_type Hop H.
  destruct Hop as [(-> & ->) | (-> & ->)];
    unfold bgp_community, bgp_aspath in H; cbv zeta in H;
    rewrite populated_afis_families in H;
    (eapply for_each_forall; [| | exact H]; [| constructor]);
    intros x q q' Hx Hq Hbody;
    apply in_map_iff in Hx; destruct Hx as ([afi r] & <- & Hx); cbn [fst] in Hbody;
    rewrite (getattr_vrf_populated _ _ _ Hx) in Hbody; cbn [bind get_vrf_name] in Hbody;
    (destruct (transport self =? "rest");
     [| destruct (transport self =? "scrape");
        [destruct (device_commands E _ _ _) as [[template | attrs] |] eqn:Hcmd;
         cbn [bind get_format get_source_address get_vrf_name] in Hbody;
         try discriminate Hbody |]]);
    injection Hbody as <-; try exact Hq;
    (apply Forall_app; split; [exact Hq |]); constructor; try constructor;
    exists afi, r; (split; [exact Hx |]).
  all: first [left; reflexivity | right; exists template; split; [exact Hcmd | reflexivity]].
Qed.

Lemma probe_source_field : forall (E : Env) (self : Construct) (l : list artifact)
    (op : Env -> Construct -> result (list artifact)) (query_type : string)
    (d : list (string * json)),
  (op = ping /\ query_type = "ping") \/ (op = traceroute /\ query_type = "traceroute") ->
  op E self = Ok l ->
  In (JsonDumps d) l ->
  exists version r address,
    ip_network_version E (query_target self) = Ok version
    /\ family_record (device_vrf self) version = Some r
    /\ source_address r = Some address
    /\ field "source" d = Some (JString (compressed address)).
Proof.
  intros E self l op query_type d Hop Hl Hin.
  destruct (single_target_returns E self l op query_type (query_target self) true)
    as [-> | (version & r & Hip & Hfam & [(source & -> & address & Hsrc & ->)
                                         | (template & _ & ->)])];
    try exact Hl.
  - destruct Hop as [(-> & ->) | (-> & ->)]; auto 6.
  - destruct Hin.
  - destruct Hin as [Hd | []]. injection Hd as <-.
    exists version, r, address. auto.
  - destruct Hin as [Hd | []]. discriminate Hd.
Qed.

(** C5. Every REST payload [ping] or [traceroute] returns has in ["source"]
    the compressed source address of the sub-record of the target's family,
    a string and never null; every REST payload [bgp_route], [bgp_community]
    or [bgp_aspath] returns has a null ["source"]. *)
Theorem rest_source_field : forall (E : Env) (self : Construct) (l : list artifact)
    (d : list (string * json)),
  In (JsonDumps d) l ->
  (ping E self = Ok l \/ traceroute E self = Ok l ->
   exists version r address,
     ip_network_version E (query_target self) = Ok version
     /\ family_record (device_vrf self) version = Some r
     /\ source_address r = Some address
     /\ field "source" d = Some (JString (compressed address)))
  /\ (bgp_route E self = Ok l \/ bgp_community E self = Ok l \/ bgp_aspath E self = Ok l ->
      field "source" d = Some JNull).
Proof.
  intros E self l d Hin. split.
  - intros [H | H].
    + apply (probe_source_field E self l ping "ping"); auto.
    + apply (probe_source_field E self l traceroute "traceroute"); auto.
  - intros [H | H].
    + destruct (single_target_returns E self l bgp_route "bgp_route"
                  (format_target E self (query_target self)) false) as
        [-> | (version & r & Hip & Hfam & [(source & -> & ->) | (template & _ & ->)])];
        auto 8.
      * destruct Hin.
      * destruct Hin as [Hd | []]. injection Hd as <-. reflexivity.
      * destruct Hin as [Hd | []]. discriminate Hd.
    + assert (Hcases : exists op query_type,
                 ((op = bgp_community /\ query_type = "bgp_community")
                  \/ (op = bgp_aspath /\ query_type = "bgp_aspath"))
                 /\ op E self = Ok l).
      { destruct H as [H | H];
          [exists bgp_community, "bgp_community" | exists bgp_aspath, "bgp_aspath"];
          auto. }
      destruct Hcases as (op & query_type & Hop & Hl).
      pose proof (fanout_returns E self l op query_type Hop Hl) as Hall.
      rewrite Forall_forall in Hall.
      destruct (Hall _ Hin) as (afi & r & _ & [Hd | (template & _ & Hd)]).
      * injection Hd as ->. reflexivity.
      * discriminate Hd.
Qed.

Lemma rest_source_field_witness :
  (exists version r address,
      ip_network_version example_env "192.0.2.1" = Ok version
      /\ family_record vrf_customer version = Some r
      /\ source_address r = Some address
      /\ field "source"
           (payload "ping" "customer_a" "ipv4_vpn" (JString "192.0.2.9") "192.0.2.1")
         = Some (JString (compressed address)))
  /\ field "source" (payload_fanout "bgp_aspath" "default" "ipv6_default" "_65000$" JNull)
     = Some JNull.
Proof.
  split.
  - exact (proj1 (rest_source_field example_env
                    (constructed (router "cisco_ios")
                       (example_query "192.0.2.1" "CUSTOMER-A") "rest" vrf_customer)
                    [JsonDumps (payload "ping" "customer_a" "ipv4_vpn"
                                  (JString "192.0.2.9") "192.0.2.1")]
                    _ (or_introl eq_refl)) (or_introl eq_refl)).
  - exact (proj2 (rest_source_field example_env
                    (constructed (router "cisco_ios") (example_query "_65000$" "default")
                       "rest" vrf_default)
                    [JsonDumps (payload_fanout "bgp_aspath" "default" "ipv4_default"
                                  "_65000$" JNull);
                     JsonDumps (payload_fanout "bgp_aspath" "default" "ipv6_default"
                                  "_65000$" JNull)]
                    _ (or_intror (or_introl eq_refl)))
             (or_intror (or_intror eq_refl))).
Defined.

(** C8. All the artifacts one invocation returns are built for the query
    type of the operation, for one and the same target and for the VRF of
    the query: [ping], [traceroute], [bgp_community] and [bgp_aspath] embed
    [query_target], [bgp_route] embeds it as [format_target] gives it.  From
    one artifact to the next only the family changes, and with it the command
    type, the source address and the name of the routing table. *)
Theorem artifacts_share_target_and_vrf : forall (E : Env) (self : Construct)
    (l : list artifact),
  (ping E self = Ok l -> Forall (built_for E self "ping" (query_target self)) l)
  /\ (traceroute E self = Ok l ->
      Forall (built_for E self "traceroute" (query_target self)) l)
  /\ (bgp_route E self = Ok l ->
      Forall (built_for E self "bgp_route" (format_target E self (query_target self))) l)
  /\ (bgp_community E self = Ok l ->
      Forall (built_for E self "bgp_community" (query_target self)) l)
  /\ (bgp_aspath E self = Ok l ->
      Forall (built_for E self "bgp_aspath" (query_target self)) l).
Proof.
  intros E self l.
  assert (Hsingle : forall op query_type target kind,
             (op = ping /\ query_type = "ping" /\ target = query_target self
              /\ kind = true)
             \/ (op = traceroute /\ query_type = "traceroute"
                 /\ target = query_target self /\ kind = true)
             \/ (op = bgp_route /\ query_type = "bgp_route"
                 /\ target = format_target E self (query_target self) /\ kind = false) ->
             op E self = Ok l -> Forall (built_for E self query_type target) l).
  { intros op query_type target kind Hop H.
    destruct (single_target_returns E self l op query_type target kind Hop H)
      as [-> | (version & r & Hip & Hfam & Hl)]; [constructor |].
    apply family_record_in in Hfam.
    destruct Hl as [(source & -> & Hsrc) | (template & Hcmd & ->)];
      constructor; try constructor;
      exists ("ipv" ++ version_digit version), r; (split; [exact Hfam |]).
    - left. eexists. split; [reflexivity |]. repeat split.
      destruct kind; [| left; now subst source].
      destruct Hsrc as (address & Hsrc & ->). right. exists address. auto.
    - right. exists template. auto. }
  assert (Hfanout : forall op query_type,
             (op = bgp_community /\ query_type = "bgp_community")
             \/ (op = bgp_aspath /\ query_type = "bgp_aspath") ->
             op E self = Ok l -> Forall (built_for E self query_type (query_target self)) l).
  { intros op query_type Hop H.
    eapply Forall_impl; [| exact (fanout_returns E self l op query_type Hop H)].
    intros a (afi & r & Hin & Ha). exists afi, r. split; [exact Hin |].
    destruct Ha as [-> | (template & Hcmd & ->)].
    - left. eexists. split; [reflexivity |]. repeat split. left. reflexivity.
    - right. exists template. auto. }
  repeat split; intros H.
  - apply (Hsingle ping "ping" _ true); auto.
  - apply (Hsingle traceroute "traceroute" _ true); auto 6.
  - apply (Hsingle bgp_route "bgp_route" _ false); auto 6.
  - apply (Hfanout bgp_community); auto.
  - apply (Hfanout bgp_aspath); auto.
Qed.

Lemma artifacts_share_target_and_vrf_witness :
  Forall
    (built_for example_env
       (constructed (router "cisco_ios") (example_query "65000:1" "default") "scrape"
          vrf_default)
       "bgp_community" "65000:1")
    [CommandLine "show bgp ipv4 unicast community 65000:1";
     CommandLine "show bgp ipv6 unicast community 65000:1"].
Proof.
  exact (proj1 (proj2 (proj2 (proj2 (artifacts_share_target_and_vrf example_env
           (constructed (router "cisco_ios") (example_query "65000:1" "default") "scrape"
              vrf_default)
           [CommandLine "show bgp ipv4 unicast community 65000:1";
            CommandLine "show bgp ipv6 unicast community 65000:1"])))) eq_refl).
Defined.

(** ** Further properties of the code *)

(** *** [format_target] *)

Lemma sub_slash_idempotent : forall target, sub_slash (sub_slash target) = sub_slash target.
Proof.
  induction target as [| c target IH]; simpl; [reflexivity |].
  rewrite IH. destruct (Ascii.eqb c "/"%char) eqn:Hc; [reflexivity |].
  now rewrite Hc.
Qed.

Lemma sub_slash_no_slash : forall target, contains "/"%char (sub_slash target) = false.
Proof.
  induction target as [| c target IH]; simpl; [reflexivity |].
  rewrite IH. destruct (Ascii.eqb c "/"%char) eqn:Hc; [reflexivity |].
  now rewrite Hc.
Qed.

Lemma sub_slash_unchanged : forall target,
  contains "/"%char target = false -> sub_slash target = target.
Proof.
  induction target as [| c target IH]; simpl; [reflexivity |].
  intros H. apply orb_false_iff in H. destruct H as [Hc Hrest].
  now rewrite Hc, IH.
Qed.

(** X1. [format_target] keeps the length of the target, and formatting an
    already formatted target changes nothing, whatever the NOS. *)
Theorem format_target_idempotent : forall (E : Env) (self : Construct) (target : string),
  format_target E self (format_target E self target) = format_target E self target
  /\ String.length (format_target E self target) = String.length target.
Proof.
  intros E self target. unfold format_target.
  destruct (mem (Device.nos (device self)) (target_format_space E)).
  - split; [apply sub_slash_idempotent | apply sub_slash_spec].
  - split; reflexivity.
Qed.

(** X2. On a NOS of [target_format_space] the formatted target has no
    ["/"] left: each one has become a space, at the same position, and every
    other character is kept where it was. *)
Theorem format_target_listed : forall (E : Env) (self : Construct) (target : string)
    (n : nat) (c : ascii),
  mem (Device.nos (device self)) (target_format_space E) = true ->
  String.get n target = Some c ->
  contains "/"%char (format_target E self target) = false
  /\ String.get n (format_target E self target)
     = Some (if Ascii.eqb c "/"%char then " "%char else c).
Proof.
  intros E self target n c Hnos Hc. unfold format_target. rewrite Hnos.
  split; [apply sub_slash_no_slash |].
  destruct (sub_slash_spec target) as [_ Hget]. rewrite Hget, Hc. reflexivity.
Qed.

Lemma format_target_listed_witness :
  contains "/"%char
    (format_target example_env
       (constructed (router "huawei") (example_query "2001:db8::/32" "default") "scrape"
          vrf_default)
       "2001:db8::/32") = false
  /\ String.get 10
       (format_target example_env
          (constructed (router "huawei") (example_query "2001:db8::/32" "default") "scrape"
             vrf_default)
          "2001:db8::/32")
     = Some " "%char.
Proof.
  exact (format_target_listed example_env
           (constructed (router "huawei") (example_query "2001:db8::/32" "default") "scrape"
              vrf_default)
           "2001:db8::/32" 10 "/"%char eq_refl eq_refl).
Defined.

(** X3. [format_target] returns the target as it is when the NOS is not in
    [target_format_space], and also on a listed NOS when the target has no
    ["/"], as the bare address of a [ping] has none. *)
Theorem format_target_unchanged : forall (E : Env) (self : Construct) (target : string),
  mem (Device.nos (device self)) (target_format_space E) = false
  \/ contains "/"%char target = false ->
  format_target E self target = target.
Proof.
  intros E self target H. unfold format_target.
  destruct (mem (Device.nos (device self)) (target_format_space E)) eqn:Hnos.
  - destruct H as [H | H]; [discriminate H | now apply sub_slash_unchanged].
  - reflexivity.
Qed.

Lemma format_target_unchanged_witness :
  format_target example_env
    (constructed (router "cisco_ios") (example_query "192.0.2.0/24" "default") "scrape"
       vrf_default)
    "192.0.2.0/24" = "192.0.2.0/24"
  /\ format_target example_env
       (constructed (router "huawei") (example_query "192.0.2.1" "default") "scrape"
          vrf_default)
       "192.0.2.1" = "192.0.2.1".
Proof.
  split.
  - exact (format_target_unchanged example_env
             (constructed (router "cisco_ios") (example_query "192.0.2.0/24" "default")
                "scrape" vrf_default)
             "192.0.2.0/24" (or_introl eq_refl)).
  - exact (format_target_unchanged example_env
             (constructed (router "huawei") (example_query "192.0.2.1" "default")
                "scrape" vrf_default)
             "192.0.2.1" (or_intror eq_refl)).
Defined.

(** *** [get_device_vrf] and [__init__] *)

Lemma find_snoc : forall (A : Type) (p : A -> bool) (l : list A) (x : A),
  find p (l ++ [x])
  = match find p l with
    | Some y => Some y
    | None => if p x then Some x else None
    end.
Proof.
  intros A p l x. induction l as [| y l IH]; simpl.
  - reflexivity.
  - destruct (p y); [reflexivity | exact IH].
Qed.

Lemma loop_from_the_end : forall (V : option string) (vrfs : list Vrf) (acc : option Vrf),
  fold_left (fun _device_vrf vrf => if str_eq (name vrf) V then Some vrf else _device_vrf)
    vrfs acc
  = match find (fun vrf => str_eq (name vrf) V) (rev vrfs) with
    | Some vrf => Some vrf
    | None => acc
    end.
Proof.
  intros V vrfs. induction vrfs as [| w vrfs IH]; intros acc; simpl.
  - reflexivity.
  - rewrite IH, find_snoc.
    destruct (find (fun vrf => str_eq (name vrf) V) (rev vrfs)); [reflexivity |].
    destruct (str_eq (name w) V); reflexivity.
Qed.

(** X4. The record [get_device_vrf] returns is the first one named
    [query_vrf] when the list of the device's VRFs is read from its end, and
    the [HyperglassError] is raised exactly when that search finds none. *)
Theorem get_device_vrf_from_the_end : forall (device : Device.t) (V : option string),
  get_device_vrf device V
  = match find (fun vrf => str_eq (name vrf) V) (rev (Device.vrfs device)) with
    | Some vrf => Ok vrf
    | None =>
        Raise (HyperglassError "Unable to match query VRF to any configured VRFs"
                 "danger" [V])
    end.
Proof.
  intros device V. unfold get_device_vrf, match_vrf. rewrite loop_from_the_end.
  destruct (find (fun vrf => str_eq (name vrf) V) (rev (Device.vrfs device))); reflexivity.
Qed.

(** X5. A query whose [query_vrf] is [None] never resolves, not even on a
    device with a VRF named ["default"], and no query resolves on a device
    without VRFs: construction raises the [HyperglassError]. *)
Theorem init_without_vrf : forall (device : Device.t) (query_data : Query.t)
    (transport : string),
  Query.query_vrf query_data = None \/ Device.vrfs device = [] ->
  init device query_data transport
  = Raise (HyperglassError "Unable to match query VRF to any configured VRFs" "danger"
             [Query.query_vrf query_data]).
Proof.
  intros device query_data transport H. unfold init, get_device_vrf.
  rewrite match_vrf_none; [reflexivity |].
  destruct H as [-> | ->]; [| constructor].
  apply Forall_forall. intros w _. discriminate.
Qed.

Lemma init_without_vrf_witness :
  init (router "cisco_ios")
    {| Query.query_target := "192.0.2.1"; Query.query_vrf := None |} "rest"
  = Raise (HyperglassError "Unable to match query VRF to any configured VRFs" "danger"
             [None])
  /\ init {| Device.nos := "cisco_ios"; Device.commands := "cisco_ios"; Device.vrfs := [] |}
       (example_query "192.0.2.1" "default") "rest"
     = Raise (HyperglassError "Unable to match query VRF to any configured VRFs" "danger"
                [Some "default"]).
Proof.
  split.
  - exact (init_without_vrf (router "cisco_ios")
             {| Query.query_target := "192.0.2.1"; Query.query_vrf := None |} "rest"
             (or_introl eq_refl)).
  - exact (init_without_vrf
             {| Device.nos := "cisco_ios"; Device.commands := "cisco_ios";
                Device.vrfs := [] |}
             (example_query "192.0.2.1" "default") "rest" (or_intror eq_refl)).
Defined.

Lemma get_cmd_type_named : forall (query_protocol n : string),
  (get_cmd_type query_protocol (Some n) = query_protocol ++ "_default"
   <-> n = "default" \/ n = "")
  /\ (get_cmd_type query_protocol (Some n) = query_protocol ++ "_vpn"
      <-> n <> "default" /\ n <> "").
Proof.
  intros query_protocol n. unfold get_cmd_type.
  destruct (truthy_str (Some n) && negb (str_eq "default" (Some n))) eqn:Hb.
  - apply named_vrf_spec in Hb. destruct Hb as (s & Hs & Hne & Hnd).
    injection Hs as <-. split; split.
    + intros H. exfalso. exact (append_suffix_neq query_protocol H).
    + intros [H | H]; contradiction.
    + intros _. split; assumption.
    + reflexivity.
  - assert (Hn : n = "default" \/ n = "").
    { destruct (string_dec n "default") as [Hd | Hd]; [left; exact Hd |].
      destruct (string_dec n "") as [He | He]; [right; exact He |].
      assert (Ht : truthy_str (Some n) && negb (str_eq "default" (Some n)) = true).
      { apply named_vrf_spec. exists n. auto. }
      congruence. }
    split; split.
    + intros _. exact Hn.
    + reflexivity.
    + intros H. exfalso. symmetry in H. exact (append_suffix_neq query_protocol H).
    + intros [H1 H2]. destruct Hn; contradiction.
Qed.

(** X6. On an instance that construction returned, the VRF of the query is
    the name of the resolved record, a record of the device, and so that
    name decides the command type: [get_cmd_type] gives the [_default] form
    exactly when the resolved record is named ["default"] or has the empty
    name, and the [_vpn] form otherwise. *)
Theorem init_cmd_type : forall (device : Device.t) (query_data : Query.t)
    (transport : string) (self : Construct) (query_protocol : string),
  init device query_data transport = Ok self ->
  In (device_vrf self) (Device.vrfs device)
  /\ query_vrf self = Some (name (device_vrf self))
  /\ (get_cmd_type query_protocol (query_vrf self) = query_protocol ++ "_default"
      <-> name (device_vrf self) = "default" \/ name (device_vrf self) = "")
  /\ (get_cmd_type query_protocol (query_vrf self) = query_protocol ++ "_vpn"
      <-> name (device_vrf self) <> "default" /\ name (device_vrf self) <> "").
Proof.
  intros device query_data transport self query_protocol H.
  unfold init, get_device_vrf in H.
  destruct (last_match_or_none (Query.query_vrf query_data) (Device.vrfs device))
    as [(before & vrf & after & Hl & Hv & Hafter) | Hnone].
  - rewrite Hl, (match_vrf_last _ before vrf after Hv Hafter) in H.
    cbn [bind] in H. injection H as <-. cbn [device_vrf query_vrf].
    split; [rewrite Hl; apply in_or_app; right; left; reflexivity |].
    split; [symmetry; exact Hv |].
    rewrite <- Hv. apply get_cmd_type_named.
  - rewrite (match_vrf_none _ _ Hnone) in H. discriminate H.
Qed.

Lemma init_cmd_type_witness :
  In vrf_customer (Device.vrfs (router "cisco_ios"))
  /\ Some "CUSTOMER-A" = Some (name vrf_customer)
  /\ (get_cmd_type "ipv4" (Some "CUSTOMER-A") = "ipv4_default"
      <-> name vrf_customer = "default" \/ name vrf_customer = "")
  /\ (get_cmd_type "ipv4" (Some "CUSTOMER-A") = "ipv4_vpn"
      <-> name vrf_customer <> "default" /\ name vrf_customer <> "").
Proof.
  exact (init_cmd_type (router "cisco_ios") (example_query "192.0.2.1" "CUSTOMER-A")
           "scrape"
           (constructed (router "cisco_ios") (example_query "192.0.2.1" "CUSTOMER-A")
              "scrape" vrf_customer)
           "ipv4" eq_refl).
Defined.

(** *** [device_commands] *)

Lemma split_dot_not_nil : forall path, split_dot path <> [].
Proof.
  destruct path as [| c path]; simpl; [discriminate |].
  destruct (Ascii.eqb c "."%char); [discriminate |].
  destruct (split_dot path); discriminate.
Qed.

Lemma split_dot_join : forall a b,
  split_dot (a ++ "." ++ b) = (split_dot a ++ split_dot b)%list.
Proof.
  induction a as [| c a IH]; intros b.
  - reflexivity.
  - change (String c a ++ "." ++ b) with (String c (a ++ "." ++ b)).
    cbn [split_dot]. rewrite IH.
    destruct (Ascii.eqb c "."%char); [reflexivity |].
    destruct (split_dot a) as [| h t] eqn:Ha; [| reflexivity].
    exfalso. exact (split_dot_not_nil a Ha).
Qed.

Lemma split_dot_no_dot : forall s, contains "."%char s = false -> split_dot s = [s].
Proof.
  induction s as [| c s IH]; simpl; [reflexivity |].
  intros H. apply orb_false_iff in H. destruct H as [Hc Hs].
  rewrite Hc, (IH Hs). reflexivity.
Qed.

Lemma device_commands_components : forall (E : Env) (nos afi query_type : string),
  device_commands E nos afi query_type
  = getattr_path (split_dot nos ++ split_dot afi ++ split_dot query_type) (commands E).
Proof.
  intros E nos afi query_type. unfold device_commands, attrgetter.
  now rewrite !split_dot_join.
Qed.

(** X7. [device_commands] reads one attribute for each dotted component of
    its three arguments, in order, starting from the catalog: a NOS name
    with a dot in it is walked as two levels, not looked up as one key. *)
Theorem device_commands_path : forall (E : Env) (nos afi query_type : string),
  device_commands E nos afi query_type
  = getattr_path (split_dot nos ++ split_dot afi ++ split_dot query_type) (commands E).
Proof. exact device_commands_components. Qed.

Lemma get_cmd_type_in_command_types : forall version query_vrf,
  In (get_cmd_type ("ipv" ++ version_digit version) query_vrf) command_types.
Proof.
  intros version query_vrf. unfold get_cmd_type, command_types.
  destruct (truthy_str query_vrf && negb (str_eq "default" query_vrf)), version;
    simpl; auto.
Qed.

(** X8. For a catalog key without a dot, the lookup any operation makes is
    the access [commands.<nos>.<command type>.<query type>]: three
    attributes, each read on the object the one before gave. *)
Theorem device_commands_three_levels : forall (E : Env) (nos query_type : string)
    (version : ip_version) (query_vrf : option string),
  contains "."%char nos = false ->
  In query_type ["ping"; "traceroute"; "bgp_route"; "bgp_community"; "bgp_aspath"] ->
  device_commands E nos (get_cmd_type ("ipv" ++ version_digit version) query_vrf) query_type
  = (by_nos <- getattr_obj (commands E) nos ;;
     by_type <- getattr_obj by_nos
                  (get_cmd_type ("ipv" ++ version_digit version) query_vrf) ;;
     getattr_obj by_type query_type).
Proof.
  intros E nos query_type version query_vrf Hnos Hq.
  rewrite device_commands_components, (split_dot_no_dot nos Hnos).
  assert (Hafi : split_dot (get_cmd_type ("ipv" ++ version_digit version) query_vrf)
                 = [get_cmd_type ("ipv" ++ version_digit version) query_vrf]).
  { apply split_dot_no_dot. unfold get_cmd_type.
    destruct (truthy_str query_vrf && negb (str_eq "default" query_vrf)), version;
      reflexivity. }
  assert (Hqt : split_dot query_type = [query_type]).
  { apply split_dot_no_dot. simpl in Hq.
    destruct Hq as [<- | [<- | [<- | [<- | [<- | []]]]]]; reflexivity. }
  rewrite Hafi, Hqt. cbn [app getattr_path].
  destruct (getattr_obj (commands E) nos) as [by_nos |]; cbn [bind]; [| reflexivity].
  destruct (getattr_obj by_nos _) as [by_type |]; cbn [bind]; [| reflexivity].
  destruct (getattr_obj by_type query_type); reflexivity.
Qed.

Lemma device_commands_three_levels_witness :
  device_commands example_env "cisco_ios" (get_cmd_type "ipv4" (Some "CUSTOMER-A")) "ping"
  = Ok (PyStr "ping vrf {vrf} {target} repeat 5 source {source}").
Proof.
  refine (eq_trans
            (device_commands_three_levels example_env "cisco_ios" "ping" V4
               (Some "CUSTOMER-A") eq_refl _) eq_refl).
  simpl. left. reflexivity.
Defined.




(** *** The operations on one target *)

Lemma single_target_kind : forall (E : Env) (self : Construct) (l : list artifact)
    (op : Env -> Construct -> result (list artifact)),
  In op single_target_operations ->
  op E self = Ok l ->
  ((transport self =? "rest") = true /\ exists d, l = [JsonDumps d])
  \/ ((transport self =? "rest") = false /\ (transport self =? "scrape") = true
      /\ exists s, l = [CommandLine s])
  \/ ((transport self =? "rest") = false /\ (transport self =? "scrape") = false
      /\ l = []).
Proof.
  intros E self l op Hop H.
  destruct Hop as [<- | [<- | [<- | []]]];
    unfold ping, traceroute, bgp_route in H;
    (destruct (ip_network_version E (query_target self)) as [version |];
     cbn [bind] in H; [| discriminate H]);
    rewrite getattr_vrf_family in H; cbn [bind] in H;
    (destruct (transport self =? "rest");
     [| destruct (transport self =? "scrape");
        [| injection H as <-; right; right; auto]]);
    (destruct (family_record (device_vrf self) version) as [r |];
     cbn [of_afi get_vrf_name get_source_address bind type_of] in H);
    try (destruct (device_commands E _ _ _) as [[template | attrs] |];
         cbn [bind get_format get_source_address get_vrf_name type_of] in H);
    try discriminate H;
    try (destruct (source_address r) as [address |];
         cbn [bind get_compressed] in H; try discriminate H);
    injection H as <-;
    first [left; split; [reflexivity | eexists; reflexivity]
          | right; left; split; [reflexivity | split; [reflexivity | eexists; reflexivity]]].
Qed.

(** X10. [ping], [traceroute] and [bgp_route] never return more than one
    artifact: the list they return has exactly one element with the
    transports ["rest"] and ["scrape"], and none with any other. *)
Theorem single_target_length : forall (E : Env) (self : Construct) (l : list artifact)
    (op : Env -> Construct -> result (list artifact)),
  In op single_target_operations ->
  op E self = Ok l ->
  length l
  = if (transport self =? "rest") || (transport self =? "scrape") then 1 else 0.
Proof.
  intros E self l op Hop H.
  destruct (single_target_kind E self l op Hop H)
    as [(-> & d & ->) | [(-> & -> & s & ->) | (-> & -> & ->)]]; reflexivity.
Qed.

Lemma single_target_length_witness :
  length [CommandLine "ping vrf customer_a 192.0.2.1 repeat 5 source 192.0.2.9"] = 1.
Proof.
  refine (single_target_length example_env
            (constructed (router "cisco_ios") (example_query "192.0.2.1" "CUSTOMER-A")
               "scrape" vrf_customer)
            [CommandLine "ping vrf customer_a 192.0.2.1 repeat 5 source 192.0.2.9"]
            ping _ eq_refl).
  simpl. left. reflexivity.
Defined.

(** X11. With the REST transport, a sub-record for the family of the target
    and a source address on it, [ping] and [traceroute] return the one
    payload whose [vrf] is the table name of the sub-record, whose [afi] is
    the command type, whose [source] is the compressed source address and
    whose [target] is the target of the query. *)
Theorem probe_rest_returns : forall (E : Env) (self : Construct) (version : ip_version)
    (r : AfiRecord) (address : IPAddress)
    (op : Env -> Construct -> result (list artifact)) (query_type : string),
  (op = ping /\ query_type = "ping") \/ (op = traceroute /\ query_type = "traceroute") ->
  transport self = "rest" ->
  ip_network_version E (query_target self) = Ok version ->
  family_record (device_vrf self) version = Some r ->
  source_address r = Some address ->
  op E self
  = Ok [JsonDumps
          (payload query_type (vrf_name r)
             (get_cmd_type ("ipv" ++ version_digit version) (query_vrf self))
             (JString (compressed address)) (query_target self))].
Proof.
  intros E self version r address op query_type Hop Ht Hip Hfam Hsrc.
  destruct Hop as [(-> & ->) | (-> & ->)]; unfold ping, traceroute; step_op; reflexivity.
Qed.

Lemma probe_rest_returns_witness :
  traceroute example_env
    (constructed (router "cisco_ios") (example_query "2001:db8::1" "default") "rest"
       vrf_default)
  = Ok [JsonDumps
          (payload "traceroute" "default" "ipv6_default" (JString "2001:db8::1")
             "2001:db8::1")].
Proof.
  exact (probe_rest_returns example_env
           (constructed (router "cisco_ios") (example_query "2001:db8::1" "default") "rest"
              vrf_default)
           V6 {| vrf_name := "default";
                 source_address := Some {| compressed := "2001:db8::1" |} |}
           {| compressed := "2001:db8::1" |} traceroute "traceroute"
           (or_intror (conj eq_refl eq_refl)) eq_refl eq_refl eq_refl eq_refl).
Defined.

(** X12. With the CLI transport, a sub-record for the family of the target
    and a template in the catalog, each of the three operations returns the
    one command line rendered from the template; the source address is
    handed to the template as it is, so a sub-record without one does not
    make a CLI query fail as it makes a REST [ping] fail. *)
Theorem single_target_cli_returns : forall (E : Env) (self : Construct)
    (version : ip_version) (r : AfiRecord) (template : string)
    (op : Env -> Construct -> result (list artifact)) (query_type target : string),
  (op = ping /\ query_type = "ping" /\ target = query_target self)
  \/ (op = traceroute /\ query_type = "traceroute" /\ target = query_target self)
  \/ (op = bgp_route /\ query_type = "bgp_route"
      /\ target = format_target E self (query_target self)) ->
  transport self = "scrape" ->
  ip_network_version E (query_target self) = Ok version ->
  family_record (device_vrf self) version = Some r ->
  device_commands E (Device.commands (device self))
    (get_cmd_type ("ipv" ++ version_digit version) (query_vrf self)) query_type
  = Ok (PyStr template) ->
  op E self
  = Ok [CommandLine
          (str_format E template
             {| kw_target := target;
                kw_source := source_address r;
                kw_vrf := vrf_name r |})].
Proof.
  intros E self version r template op query_type target Hop Ht Hip Hfam Hcmd.
  destruct Hop as [(-> & -> & ->) | [(-> & -> & ->) | (-> & -> & ->)]];
    unfold ping, traceroute, bgp_route; step_op; reflexivity.
Qed.

Lemma single_target_cli_returns_witness :
  ping example_env
    (constructed (router "cisco_ios") (example_query "192.0.2.1" "NOSRC") "scrape"
       vrf_nosource)
  = Ok [CommandLine "ping vrf nosrc 192.0.2.1 repeat 5 source None"].
Proof.
  exact (single_target_cli_returns example_env
           (constructed (router "cisco_ios") (example_query "192.0.2.1" "NOSRC") "scrape"
              vrf_nosource)
           V4 {| vrf_name := "nosrc"; source_address := None |}
           "ping vrf {vrf} {target} repeat 5 source {source}" ping "ping" "192.0.2.1"
           (or_introl (conj eq_refl (conj eq_refl eq_refl)))
           eq_refl eq_refl eq_refl eq_refl).
Defined.

(** X13. On a device whose NOS is not in [target_format_space], [bgp_route]
    embeds the prefix with its ["/"], in the REST payload and in the command
    line; the REST payload needs no source address and has a null
    [source]. *)
Theorem bgp_route_unlisted_nos : forall (E : Env) (self : Construct)
    (version : ip_version) (r : AfiRecord),
  mem (Device.nos (device self)) (target_format_space E) = false ->
  ip_network_version E (query_target self) = Ok version ->
  family_record (device_vrf self) version = Some r ->
  (transport self = "rest" ->
   bgp_route E self
   = Ok [JsonDumps
           (payload "bgp_route" (vrf_name r)
              (get_cmd_type ("ipv" ++ version_digit version) (query_vrf self))
              JNull (query_target self))])
  /\ (forall template,
      transport self = "scrape" ->
      device_commands E (Device.commands (device self))
        (get_cmd_type ("ipv" ++ version_digit version) (query_vrf self)) "bgp_route"
      = Ok (PyStr template) ->
      bgp_route E self
      = Ok [CommandLine
              (str_format E template
                 {| kw_target := query_target self;
                    kw_source := source_address r;
                    kw_vrf := vrf_name r |})]).
Proof.
  intros E self version r Hnos Hip Hfam.
  split; [intros Ht | intros template Ht Hcmd];
    unfold bgp_route, format_target; step_op; reflexivity.
Qed.

Lemma bgp_route_unlisted_nos_witness :
  bgp_route example_env
    (constructed (router "cisco_ios") (example_query "192.0.2.0/24" "NOSRC") "rest"
       vrf_nosource)
  = Ok [JsonDumps (payload "bgp_route" "nosrc" "ipv4_vpn" JNull "192.0.2.0/24")]
  /\ bgp_route example_env
       (constructed (router "cisco_ios") (example_query "192.0.2.0/24" "default") "scrape"
          vrf_default)
     = Ok [CommandLine "show bgp ipv4 unicast 192.0.2.0/24"].
Proof.
  split.
  - exact (proj1 (bgp_route_unlisted_nos example_env
                    (constructed (router "cisco_ios") (example_query "192.0.2.0/24" "NOSRC")
                       "rest" vrf_nosource)
                    V4 {| vrf_name := "nosrc"; source_address := None |}
                    eq_refl eq_refl eq_refl) eq_refl).
  - exact (proj2 (bgp_route_unlisted_nos example_env
                    (constructed (router "cisco_ios") (example_query "192.0.2.0/24" "default")
                       "scrape" vrf_default)
                    V4 {| vrf_name := "default";
                          source_address := Some {| compressed := "192.0.2.1" |} |}
                    eq_refl eq_refl eq_refl)
             "show bgp ipv4 unicast {target}" eq_refl eq_refl).
Defined.

(** X14. A target [ip_network] rejects makes [ping], [traceroute] and
    [bgp_route] raise its error unchanged, with every transport, also one
    that would otherwise return the empty list: the target is parsed before
    the transport, the VRF or the catalog are looked at. *)
Theorem invalid_target_raises : forall (E : Env) (self : Construct) (e : exn)
    (op : Env -> Construct -> result (list artifact)),
  In op single_target_operations ->
  ip_network_version E (query_target self) = Raise e ->
  op E self = Raise e.
Proof.
  intros E self e op Hop Hip.
  destruct Hop as [<- | [<- | [<- | []]]];
    unfold ping, traceroute, bgp_route; rewrite Hip; reflexivity.
Qed.

Lemma invalid_target_raises_witness :
  ping example_env
    (constructed (router "cisco_ios") (example_query "_65000$" "default") "netconf"
       vrf_default)
  = Raise (ValueError "_65000$").
Proof.
  refine (invalid_target_raises example_env
            (constructed (router "cisco_ios") (example_query "_65000$" "default")
               "netconf" vrf_default)
            (ValueError "_65000$") ping _ eq_refl).
  simpl. left. reflexivity.
Defined.

(** *** The operations on every family *)

(** X15. On a VRF with neither family populated [bgp_community] and
    [bgp_aspath] return the empty list with every transport and every
    catalog: no template is looked up and nothing is raised. *)
Theorem fanout_no_family : forall (E : Env) (self : Construct)
    (op : Env -> Construct -> result (list artifact)),
  In op [bgp_community; bgp_aspath] ->
  ipv4 (device_vrf self) = None ->
  ipv6 (device_vrf self) = None ->
  op E self = Ok [].
Proof.
  intros E self op Hop H4 H6.
  destruct Hop as [<- | [<- | []]];
    unfold bgp_community, bgp_aspath; cbv zeta;
    rewrite populated_afis_families, families_cases, H4, H6; reflexivity.
Qed.

Lemma fanout_no_family_witness :
  bgp_aspath example_env
    (constructed (router "huawei") (example_query "_65000$" "EMPTY") "scrape"
       {| name := "EMPTY"; ipv4 := None; ipv6 := None |})
  = Ok [].
Proof.
  refine (fanout_no_family example_env
            (constructed (router "huawei") (example_query "_65000$" "EMPTY") "scrape"
               {| name := "EMPTY"; ipv4 := None; ipv6 := None |})
            bgp_aspath _ eq_refl eq_refl).
  simpl. right. left. reflexivity.
Defined.

Lemma for_each_first_error : forall (A B : Type) (body : A -> list B -> result (list B))
    (before : list A) (x : A) (after : list A) (query : list B) (e : exn),
  (forall y q, In y before -> exists q', body y q = Ok q') ->
  (forall q, body x q = Raise e) ->
  for_each (before ++ x :: after) body query = Raise e.
Proof.
  intros A B body before x after. induction before as [| y before IH];
    intros query e Hbefore Hx; simpl.
  - now rewrite Hx.
  - destruct (Hbefore y query) as [q' Hq']; [left; reflexivity |].
    rewrite Hq'. cbn [bind]. apply IH; [| exact Hx].
    intros y' q Hin. apply Hbefore. right. exact Hin.
Qed.

(** X16. In a CLI [bgp_community] or [bgp_aspath] the families are served
    in order and the first template lookup that fails ends the operation
    with its own error: the artifacts of the families before it are not
    returned, and the families after it are not looked up. *)
Theorem fanout_first_error : forall (E : Env) (self : Construct)
    (op : Env -> Construct -> result (list artifact)) (query_type : string)
    (before after : list (string * AfiRecord)) (afi : string) (r : AfiRecord) (e : exn),
  (op = bgp_community /\ query_type = "bgp_community")
  \/ (op = bgp_aspath /\ query_type = "bgp_aspath") ->
  transport self = "scrape" ->
  families (device_vrf self) = (before ++ (afi, r) :: after)%list ->
  (forall afi' r',
      In (afi', r') before ->
      exists template,
        device_commands E (Device.commands (device self))
          (get_cmd_type afi' (query_vrf self)) query_type
        = Ok (PyStr template)) ->
  device_commands E (Device.commands (device self))
    (get_cmd_type afi (query_vrf self)) query_type
  = Raise e ->
  op E self = Raise e.
Proof.
  intros E self op query_type before after afi r e Hop Ht Hfam Hbefore Hcmd.
  assert (Hin : forall afi' r',
             In (afi', r') (before ++ (afi, r) :: after) ->
             getattr_vrf (device_vrf self) afi' = Ok (VAfi r')).
  { intros afi' r' H. apply getattr_vrf_populated. rewrite Hfam. exact H. }
  destruct Hop as [(-> & ->) | (-> & ->)];
    unfold bgp_community, bgp_aspath; cbv zeta;
    rewrite populated_afis_families, Hfam, map_app; cbn [map fst];
    (apply for_each_first_error;
     [ intros y q Hy; apply in_map_iff in Hy; destruct Hy as ([afi' r'] & <- & Hy);
       cbn [fst];
       rewrite (Hin afi' r') by (apply in_or_app; left; exact Hy);
       destruct (Hbefore afi' r' Hy) as [template Htemplate];
       step_op; eexists; reflexivity
     | intros q; rewrite (Hin afi r) by (apply in_or_app; right; left; reflexivity);
       step_op; reflexivity ]).
Qed.

Lemma fanout_first_error_witness :
  bgp_aspath example_env
    (constructed (router "cisco_ios") (example_query "_65000$" "default") "scrape"
       vrf_default)
  = Raise (AttributeError ObjectType "bgp_aspath").
Proof.
  refine (fanout_first_error example_env
            (constructed (router "cisco_ios") (example_query "_65000$" "default") "scrape"
               vrf_default)
            bgp_aspath "bgp_aspath"
            [("ipv4", {| vrf_name := "default";
                         source_address := Some {| compressed := "192.0.2.1" |} |})]
            [] "ipv6"
            {| vrf_name := "default";
               source_address := Some {| compressed := "2001:db8::1" |} |}
            (AttributeError ObjectType "bgp_aspath")
            (or_intror (conj eq_refl eq_refl)) eq_refl eq_refl _ eq_refl).
  intros afi' r' H. simpl in H. destruct H as [H | []]. injection H as <- <-.
  exists "show bgp ipv4 unicast regexp {target}". reflexivity.
Defined.

(** *** What every returned artifact satisfies *)

Lemma in_single_target : forall (E : Env) (self : Construct)
    (op : Env -> Construct -> result (list artifact)),
  In op single_target_operations ->
  exists query_type target kind,
    (op = ping /\ query_type = "ping" /\ target = query_target self /\ kind = true)
    \/ (op = traceroute /\ query_type = "traceroute" /\ target = query_target self
        /\ kind = true)
    \/ (op = bgp_route /\ query_type = "bgp_route"
        /\ target = format_target E self (query_target self) /\ kind = false).
Proof.
  intros E self op [<- | [<- | [<- | []]]].
  - exists "ping", (query_target self), true. auto.
  - exists "traceroute", (query_target self), true. auto 6.
  - exists "bgp_route", (format_target E self (query_target self)), false. auto 6.
Qed.

Lemma in_operations : forall op,
  In op operations ->
  In op single_target_operations
  \/ exists query_type,
       (op = bgp_community /\ query_type = "bgp_community")
       \/ (op = bgp_aspath /\ query_type = "bgp_aspath").
Proof.
  intros op [<- | [<- | [<- | [<- | [<- | []]]]]]; simpl; auto;
    right; [exists "bgp_community" | exists "bgp_aspath"]; auto.
Qed.

Lemma fanout_kind : forall (E : Env) (self : Construct) (l : list artifact)
    (op : Env -> Construct -> result (list artifact)),
  In op [bgp_community; bgp_aspath] ->
  op E self = Ok l ->
  Forall (fun a => kind_matches (transport self) a = true) l.
Proof.
  intros E self l op Hop H.
  destruct Hop as [<- | [<- | []]];
    unfold bgp_community, bgp_aspath in H; cbv zeta in H;
    (eapply for_each_forall; [| | exact H]; [| apply Forall_nil]);
    intros x q q' _ Hq Hbody; cbv beta in Hbody;
    (destruct (getattr_vrf (device_vrf self) x) as [afi_attr |];
     cbn [bind] in Hbody; [| discriminate Hbody]);
    (destruct (transport self =? "rest") eqn:Hrest;
     [ destruct (get_vrf_name afi_attr); cbn [bind] in Hbody; [| discriminate Hbody]
     | destruct (transport self =? "scrape") eqn:Hscrape;
       [ destruct (device_commands E _ _ _) as [cmd |]; cbn [bind] in Hbody;
         [| discriminate Hbody];
         destruct (get_format E cmd); cbn [bind] in Hbody; [| discriminate Hbody];
         destruct (get_source_address afi_attr); cbn [bind] in Hbody;
         [| discriminate Hbody];
         destruct (get_vrf_name afi_attr); cbn [bind] in Hbody; [| discriminate Hbody]
       | ] ]);
    injection Hbody as <-; try exact Hq;
    (apply Forall_app; split; [exact Hq |]); constructor; try constructor;
    cbn [kind_matches]; assumption.
Qed.

(** X17. The artifacts of a returned list are all of the kind the transport
    asks for: JSON texts and no command line with ["rest"], command lines
    and no JSON text with ["scrape"]; with another transport there is no
    artifact of either kind. *)
Theorem artifacts_match_transport : forall (E : Env) (self : Construct)
    (l : list artifact) (op : Env -> Construct -> result (list artifact)),
  In op operations ->
  op E self = Ok l ->
  Forall (fun a => kind_matches (transport self) a = true) l.
Proof.
  intros E self l op Hop H.
  destruct (in_operations op Hop) as [Hsingle | (query_type & Hfanout)].
  - destruct (single_target_kind E self l op Hsingle H)
      as [(Hrest & d & ->) | [(Hrest & Hscrape & s & ->) | (_ & _ & ->)]];
      repeat constructor; assumption.
  - apply (fanout_kind E self l op); [| exact H].
    destruct Hfanout as [(-> & _) | (-> & _)]; simpl; auto.
Qed.

Lemma artifacts_match_transport_witness :
  Forall (fun a => kind_matches "scrape" a = true)
    [CommandLine "show bgp ipv4 unicast community 65000:1";
     CommandLine "show bgp ipv6 unicast community 65000:1"].
Proof.
  refine (artifacts_match_transport example_env
            (constructed (router "cisco_ios") (example_query "65000:1" "default") "scrape"
               vrf_default)
            [CommandLine "show bgp ipv4 unicast community 65000:1";
             CommandLine "show bgp ipv6 unicast community 65000:1"]
            bgp_community _ eq_refl).
  simpl. auto 6.
Defined.

(** X18. Every JSON payload has the five keys of the wire format and no
    other, [query_type], [vrf], [afi], [source], [target], with [target]
    before [source] in [bgp_community] and [bgp_aspath] and after it in the
    other three, and its [query_type] is the name of the operation that
    built it. *)
Theorem rest_payload_keys : forall (E : Env) (self : Construct) (l : list artifact)
    (op : Env -> Construct -> result (list artifact)) (query_type : string)
    (d : list (string * json)),
  operation_named op query_type ->
  op E self = Ok l ->
  In (JsonDumps d) l ->
  field "query_type" d = Some (JString query_type)
  /\ map fst d
     = if (query_type =? "bgp_community") || (query_type =? "bgp_aspath")
       then ["query_type"; "vrf"; "afi"; "target"; "source"]
       else ["query_type"; "vrf"; "afi"; "source"; "target"].
Proof.
  intros E self l op query_type d Hop H Hin.
  assert (Hcases :
            (exists target kind,
                ((op = ping /\ query_type = "ping" /\ target = query_target self
                  /\ kind = true)
                 \/ (op = traceroute /\ query_type = "traceroute"
                     /\ target = query_target self /\ kind = true)
                 \/ (op = bgp_route /\ query_type = "bgp_route"
                     /\ target = format_target E self (query_target self)
                     /\ kind = false))
                /\ (query_type =? "bgp_community") || (query_type =? "bgp_aspath") = false)
            \/ (((op = bgp_community /\ query_type = "bgp_community")
                 \/ (op = bgp_aspath /\ query_type = "bgp_aspath"))
                /\ (query_type =? "bgp_community") || (query_type =? "bgp_aspath") = true)).
  { destruct Hop as [(-> & ->) | [(-> & ->) | [(-> & ->) | [(-> & ->) | (-> & ->)]]]].
    - left. exists (query_target self), true. split; [auto 6 | reflexivity].
    - left. exists (query_target self), true. split; [auto 6 | reflexivity].
    - left. exists (format_target E self (query_target self)), false.
      split; [auto 6 | reflexivity].
    - right. split; [auto | reflexivity].
    - right. split; [auto | reflexivity]. }
  destruct Hcases as [(target & kind & Hsingle & ->) | (Hfanout & ->)].
  - destruct (single_target_returns E self l op query_type target kind Hsingle H)
      as [-> | (version & r & _ & _ & [(source & -> & _) | (template & _ & ->)])].
    + destruct Hin.
    + destruct Hin as [Hd | []]. injection Hd as <-. split; reflexivity.
    + destruct Hin as [Hd | []]. discriminate Hd.
  - pose proof (fanout_returns E self l op query_type Hfanout H) as Hall.
    rewrite Forall_forall in Hall.
    destruct (Hall _ Hin) as (afi & r & _ & [Hd | (template & _ & Hd)]).
    + injection Hd as ->. split; reflexivity.
    + discriminate Hd.
Qed.

Lemma rest_payload_keys_witness :
  field "query_type"
    (payload_fanout "bgp_community" "default" "ipv6_default" "65000:1" JNull)
  = Some (JString "bgp_community")
  /\ map fst (payload_fanout "bgp_community" "default" "ipv6_default" "65000:1" JNull)
     = ["query_type"; "vrf"; "afi"; "target"; "source"].
Proof.
  refine (rest_payload_keys example_env
            (constructed (router "cisco_ios") (example_query "65000:1" "default") "rest"
               vrf_default)
            [JsonDumps (payload_fanout "bgp_community" "default" "ipv4_default" "65000:1"
                          JNull);
             JsonDumps (payload_fanout "bgp_community" "default" "ipv6_default" "65000:1"
                          JNull)]
            bgp_community "bgp_community" _ _ eq_refl _).
  - unfold operation_named. auto 8.
  - simpl. right. left. reflexivity.
Defined.

Lemma families_afi : forall vrf afi r,
  In (afi, r) (families vrf) -> exists version, afi = "ipv" ++ version_digit version.
Proof.
  intros vrf afi r. unfold families.
  destruct (ipv4 vrf), (ipv6 vrf); simpl; intros H;
    repeat destruct H as [H | H]; try contradiction; injection H as <- _;
    first [exists V4; reflexivity | exists V6; reflexivity].
Qed.

(** X19. The [afi] field of every JSON payload is one of the four command
    types [ipv4_default], [ipv4_vpn], [ipv6_default] and [ipv6_vpn], whatever
    the operation, the target and the VRF. *)
Theorem rest_afi_values : forall (E : Env) (self : Construct) (l : list artifact)
    (op : Env -> Construct -> result (list artifact)) (d : list (string * json)),
  In op operations ->
  op E self = Ok l ->
  In (JsonDumps d) l ->
  exists cmd_type, field "afi" d = Some (JString cmd_type) /\ In cmd_type command_types.
Proof.
  intros E self l op d Hop H Hin.
  destruct (in_operations op Hop) as [Hsingle | (query_type & Hfanout)].
  - destruct (in_single_target E self op Hsingle) as (query_type & target & kind & Hshape).
    destruct (single_target_returns E self l op query_type target kind Hshape H)
      as [-> | (version & r & _ & _ & [(source & -> & _) | (template & _ & ->)])].
    + destruct Hin.
    + destruct Hin as [Hd | []]. injection Hd as <-.
      eexists. split; [reflexivity | apply get_cmd_type_in_command_types].
    + destruct Hin as [Hd | []]. discriminate Hd.
  - pose proof (fanout_returns E self l op query_type Hfanout H) as Hall.
    rewrite Forall_forall in Hall.
    destruct (Hall _ Hin) as (afi & r & Hfam & [Hd | (template & _ & Hd)]).
    + injection Hd as ->. destruct (families_afi _ _ _ Hfam) as [version ->].
      eexists. split; [reflexivity | apply get_cmd_type_in_command_types].
    + discriminate Hd.
Qed.

Lemma rest_afi_values_witness :
  exists cmd_type,
    field "afi" (payload "ping" "customer_a" "ipv4_vpn" (JString "192.0.2.9") "192.0.2.1")
    = Some (JString cmd_type)
    /\ In cmd_type command_types.
Proof.
  refine (rest_afi_values example_env
            (constructed (router "cisco_ios") (example_query "192.0.2.1" "CUSTOMER-A")
               "rest" vrf_customer)
            [JsonDumps (payload "ping" "customer_a" "ipv4_vpn" (JString "192.0.2.9")
                          "192.0.2.1")]
            ping _ _ eq_refl _); simpl; auto.
Defined.

Lemma for_each_ext : forall (A B : Type) (body body' : A -> list B -> result (list B))
    (l : list A) (query : list B),
  (forall x q, body x q = body' x q) ->
  for_each l body query = for_each l body' query.
Proof.
  intros A B body body' l. induction l as [| x l IH]; intros query H; simpl.
  - reflexivity.
  - rewrite H. destruct (body' x query); cbn [bind]; [apply IH; exact H | reflexivity].
Qed.

(** X20. With the REST transport no operation reads the command catalog:
    the result, payloads or error, is the same with any other catalog, an
    empty one included. *)
Theorem rest_ignores_catalog : forall (E : Env) (self : Construct) (catalog : pyobj)
    (op : Env -> Construct -> result (list artifact)),
  In op operations ->
  transport self = "rest" ->
  op (with_commands E catalog) self = op E self.
Proof.
  intros E self catalog op Hop Ht.
  destruct Hop as [<- | [<- | [<- | [<- | [<- | []]]]]].
  - unfold ping. cbn [with_commands ip_network_version].
    destruct (ip_network_version E (query_target self)); cbn [bind]; [| reflexivity].
    destruct (getattr_vrf _ _); cbn [bind]; [| reflexivity].
    rewrite Ht, String.eqb_refl. reflexivity.
  - unfold traceroute. cbn [with_commands ip_network_version].
    destruct (ip_network_version E (query_target self)); cbn [bind]; [| reflexivity].
    destruct (getattr_vrf _ _); cbn [bind]; [| reflexivity].
    rewrite Ht, String.eqb_refl. reflexivity.
  - unfold bgp_route. cbn [with_commands ip_network_version].
    destruct (ip_network_version E (query_target self)); cbn [bind]; [| reflexivity].
    destruct (getattr_vrf _ _); cbn [bind]; [| reflexivity].
    rewrite Ht, String.eqb_refl. reflexivity.
  - unfold bgp_community. cbv zeta. apply for_each_ext. intros x q.
    destruct (getattr_vrf _ _); cbn [bind]; [| reflexivity].
    rewrite Ht, String.eqb_refl. reflexivity.
  - unfold bgp_aspath. cbv zeta. apply for_each_ext. intros x q.
    destruct (getattr_vrf _ _); cbn [bind]; [| reflexivity].
    rewrite Ht, String.eqb_refl. reflexivity.
Qed.

Lemma rest_ignores_catalog_witness :
  bgp_route (with_commands example_env (PyObject []))
    (constructed (router "huawei") (example_query "192.0.2.0/24" "default") "rest"
       vrf_default)
  = bgp_route example_env
      (constructed (router "huawei") (example_query "192.0.2.0/24" "default") "rest"
         vrf_default).
Proof.
  refine (rest_ignores_catalog example_env
            (constructed (router "huawei") (example_query "192.0.2.0/24" "default") "rest"
               vrf_default)
            (PyObject []) bgp_route _ eq_refl).
  simpl. auto.
Defined.

Lemma for_each_grows : forall (A B : Type) (k : nat)
    (body : A -> list B -> result (list B)) (l : list A) (query result : list B),
  (forall x q q', In x l -> body x q = Ok q' -> length q' = length q + k) ->
  for_each l body query = Ok result ->
  length result = length query + k * length l.
Proof.
  intros A B k body l. induction l as [| x l IH]; intros query result Hbody; simpl.
  - intros H. injection H as <-. lia.
  - destruct (body x query) as [q' | e] eqn:Hx; cbn [bind]; [| discriminate].
    intros H. apply IH in H.
    + rewrite H, (Hbody x query q') by (auto; left; reflexivity). lia.
    + intros x' q q'' Hin. apply Hbody. right. exact Hin.
Qed.

(** X21. Whenever [bgp_community] or [bgp_aspath] returns a list, the list
    has as many artifacts as the resolved VRF has populated families, two at
    most, with the transports ["rest"] and ["scrape"], and is empty with any
    other transport. *)
Theorem fanout_length : forall (E : Env) (self : Construct) (l : list artifact)
    (op : Env -> Construct -> result (list artifact)),
  In op [bgp_community; bgp_aspath] ->
  op E self = Ok l ->
  length l
  = (if (transport self =? "rest") || (transport self =? "scrape")
     then length (families (device_vrf self)) else 0)
  /\ length l <= 2.
Proof.
  intros E self l op Hop H.
  assert (Hfam : length (families (device_vrf self)) <= 2).
  { rewrite families_cases.
    destruct (ipv4 (device_vrf self)), (ipv6 (device_vrf self)); simpl; lia. }
  assert (Hlen : length l
                 = (if (transport self =? "rest") || (transport self =? "scrape")
                    then 1 else 0) * length (families (device_vrf self))).
  { rewrite <- (length_map fst (families (device_vrf self))), <- populated_afis_families.
    change (length l
            = length (@nil artifact)
              + (if (transport self =? "rest") || (transport self =? "scrape")
                 then 1 else 0) * length (populated_afis (device_vrf self))).
    destruct Hop as [<- | [<- | []]];
      unfold bgp_community, bgp_aspath in H; cbv zeta in H;
      (eapply for_each_grows; [| exact H]);
      intros x q q' _ Hbody; cbv beta in Hbody;
      (destruct (getattr_vrf (device_vrf self) x) as [afi_attr |];
       cbn [bind] in Hbody; [| discriminate Hbody]);
      (destruct (transport self =? "rest");
       [ destruct (get_vrf_name afi_attr); cbn [bind] in Hbody; [| discriminate Hbody]
       | destruct (transport self =? "scrape");
         [ destruct (device_commands E _ _ _) as [cmd |]; cbn [bind] in Hbody;
           [| discriminate Hbody];
           destruct (get_format E cmd); cbn [bind] in Hbody; [| discriminate Hbody];
           destruct (get_source_address afi_attr); cbn [bind] in Hbody;
           [| discriminate Hbody];
           destruct (get_vrf_name afi_attr); cbn [bind] in Hbody; [| discriminate Hbody]
         | ] ]);
      injection Hbody as <-; rewrite ?length_app; simpl; lia. }
  rewrite Hlen.
  destruct ((transport self =? "rest") || (transport self =? "scrape")); lia.
Qed.

Lemma fanout_length_witness :
  length [CommandLine "show bgp ipv4 unicast community 65000:1";
          CommandLine "show bgp ipv6 unicast community 65000:1"]
  = length (families vrf_default)
  /\ length [CommandLine "show bgp ipv4 unicast community 65000:1";
             CommandLine "show bgp ipv6 unicast community 65000:1"] <= 2.
Proof.
  refine (fanout_length example_env
            (constructed (router "cisco_ios") (example_query "65000:1" "default") "scrape"
               vrf_default)
            [CommandLine "show bgp ipv4 unicast community 65000:1";
             CommandLine "show bgp ipv6 unicast community 65000:1"]
            bgp_community _ eq_refl).
  simpl. left. reflexivity.
Defined.
